(** * pye3d: a shallow embedding of the detector orchestrator and of the
      legacy two-sphere model

    Sources embedded here:
    - [src/pye3d/detector_3d.py]: [Detector3D] and [_ModelUpdateSchedule];
    - [src/pye3d/two_sphere_model.py]: [TwoSphereModel].

    Numbers.  Python floats are modelled by the rationals [Q] with exact
    arithmetic, so every definition below computes.  Division by zero is
    outside this idealisation ([Q] answers 0 there).  Functions of numpy and
    scipy that are not rational or that can fail ([np.linalg.norm], [np.exp],
    [np.linalg.pinv], [median_filter]) and the classes of this package whose
    source is not available ([geometry], [observation], [kalman], [eye_model],
    [cpp]) enter as interfaces (type classes); the concrete instances used to
    run the examples are given separately and are marked as such.

    Layout: part I holds the definitions, part II the theorems. *)

From Stdlib Require Import String.
From Stdlib Require Import QArith Qabs Qminmax ZArith List Bool Lia Lqa.
Import ListNotations.

Set Implicit Arguments.
Local Open Scope Q_scope.

(** * Part I: definitions *)

(** ** Comparisons on floats, as booleans *)

Module Cmp.

(** Python [x < y]. *)
Definition ltb (x y : Q) : bool := negb (Qle_bool y x).
(** Python [x > y]. *)
Definition gtb (x y : Q) : bool := ltb y x.
(** Python [x <= y]. *)
Definition leb (x y : Q) : bool := Qle_bool x y.
(** Python [x >= y]. *)
Definition geb (x y : Q) : bool := Qle_bool y x.

End Cmp.

(** ** Exceptions

    A call either returns a value or raises.  Only the exceptions that the
    embedded code can meet are listed. *)

Inductive exn : Type :=
| ValueError   (* np.gradient on fewer than two samples, np.argmax on none *)
| IndexError   (* indexing a scalar or past the end of a sequence *)
| LinAlgError. (* numpy.linalg: SVD did not converge *)

Inductive result (A : Type) : Type :=
| Ok (a : A)
| Raise (e : exn).

Arguments Ok {A} a.
Arguments Raise {A} e.

Definition bind {A B : Type} (r : result A) (k : A -> result B) : result B :=
  match r with
  | Ok a => k a
  | Raise e => Raise e
  end.

Notation "x <- r ;; k" := (bind r (fun x => k))
  (at level 61, r at next level, right associativity).

Definition raised {A : Type} (r : result A) : bool :=
  match r with
  | Ok _ => false
  | Raise _ => true
  end.

Definition fmap {A B : Type} (f : A -> B) (r : result A) : result B :=
  match r with
  | Ok a => Ok (f a)
  | Raise e => Raise e
  end.

(** ** numpy arrays of floats: vectors and matrices as lists *)

Module Np.

Definition Vec : Type := list Q.
Definition Mat : Type := list (list Q).

Fixpoint map2 {A B C : Type} (f : A -> B -> C) (l : list A) (l' : list B)
  : list C :=
  match l, l' with
  | a :: t, b :: t' => f a b :: map2 f t t'
  | _, _ => []
  end.

Definition vadd (u v : Vec) : Vec := map2 Qplus u v.
Definition vsub (u v : Vec) : Vec := map2 Qminus u v.
Definition vscale (k : Q) (v : Vec) : Vec := map (Qmult k) v.
Definition vdiv (v : Vec) (k : Q) : Vec := map (fun x => x / k) v.

Definition sum (v : list Q) : Q := fold_right Qplus 0 v.

(** [np.dot] of two vectors. *)
Definition dot (u v : Vec) : Q := sum (map2 Qmult u v).

(** [np.mean]. *)
Definition mean (v : list Q) : Q := sum v / inject_Z (Z.of_nat (length v)).

Definition madd (a b : Mat) : Mat := map2 vadd a b.
Definition mscale (k : Q) (a : Mat) : Mat := map (vscale k) a.

(** [m @ v]. *)
Definition mat_vec (m : Mat) (v : Vec) : Vec := map (fun row => dot row v) m.

(** [v.T @ m @ v]. *)
Definition quad_form (v : Vec) (m : Mat) : Q := dot v (mat_vec m v).

(** [np.array(ms).sum(axis=0)] for a list of matrices of one shape.  The sum
    of no matrix is the scalar 0.0, which the slicing that follows in the
    source cannot index: [None] stands for that case. *)
Definition sum_axis0 (ms : list Mat) : option Mat :=
  match ms with
  | [] => None
  | m :: rest => Some (fold_left madd rest m)
  end.

(** [m[:r, :c]]. *)
Definition block (r c : nat) (m : Mat) : Mat := map (firstn c) (firstn r m).

(** [m[:r, c]]. *)
Definition column (r c : nat) (m : Mat) : Vec :=
  map (fun row => nth c row 0) (firstn r m).

(** [np.gradient(f)] with unit spacing: central differences inside, one-sided
    differences at both ends; fewer than two samples raise [ValueError]. *)
Fixpoint gradient_inner (prev : Q) (l : list Q) : list Q :=
  match l with
  | [] => []
  | [x] => [x - prev]
  | x :: ((y :: _) as t) => ((y - prev) / 2) :: gradient_inner x t
  end.

Definition gradient (f : list Q) : result (list Q) :=
  match f with
  | x :: ((y :: _) as t) => Ok ((y - x) :: gradient_inner x t)
  | _ => Raise ValueError
  end.

(** [np.argmax]: the first index of a maximum; [ValueError] on no sample. *)
Fixpoint argmax_from (best : Q) (best_idx idx : nat) (l : list Q) : nat :=
  match l with
  | [] => best_idx
  | x :: t =>
    if Cmp.gtb x best then argmax_from x idx (S idx) t
    else argmax_from best best_idx (S idx) t
  end.

Definition argmax (l : list Q) : result nat :=
  match l with
  | [] => Raise ValueError
  | x :: t => Ok (argmax_from x 0%nat 1%nat t)
  end.

(** [np.clip(x, lo, hi)]. *)
Definition clip (x lo hi : Q) : Q := Qmin (Qmax x lo) hi.

(** [np.pi]: the double nearest to pi, 884279719003555 / 2^48. *)
Definition pi : Q := 884279719003555 # 281474976710656.

(** What the embedded code needs of numpy and scipy beyond rational
    arithmetic. *)
Class Lib : Type := {
  (** [np.linalg.norm] of a vector. *)
  norm : Vec -> Q;
  (** [np.exp]. *)
  exp : Q -> Q;
  (** [np.linalg.pinv]; its SVD may fail to converge ([LinAlgError]). *)
  pinv : Mat -> result Mat;
  (** [scipy.ndimage.median_filter(input, size)] of a one-dimensional
      input. *)
  median_filter : list Q -> nat -> list Q;
  (** The filter returns an array of the shape of its input. *)
  median_filter_length :
    forall (input : list Q) (size : nat),
      length (median_filter input size) = length input
}.

End Np.

(** ** Geometry primitives ([geometry.primitives], source not available)

    Modelled from the spec: the records [Ellipse], [Circle] and [Line] with
    the fields the spec's data model lists and the embedded code reads. *)

Module Ellipse.
Record t : Type := make {
  center : Np.Vec;
  minor_radius : Q;
  major_radius : Q;
  angle : Q
}.
End Ellipse.

Module Circle.
Record t : Type := make {
  center : Np.Vec;
  normal : Np.Vec;
  radius : Q
}.
End Circle.

Module Line.
Record t : Type := make {
  origin : Np.Vec;
  direction : Np.Vec
}.
End Line.

(** The members of [geometry] and [constants] that the embedded code calls. *)
Class Geometry : Type := {
  (** [constants._EYE_RADIUS_DEFAULT]. *)
  _EYE_RADIUS_DEFAULT : Q;
  (** [geometry.utilities.normalize]. *)
  normalize : Np.Vec -> Np.Vec;
  (** [geometry.utilities.sph2cart(phi, theta)]. *)
  sph2cart : Q -> Q -> Np.Vec;
  (** [geometry.projections.project_point_into_image_plane(point, focal_length)]. *)
  project_point_into_image_plane : Np.Vec -> Q -> Np.Vec;
  (** [geometry.projections.project_line_into_image_plane(line, focal_length)]. *)
  project_line_into_image_plane : Line.t -> Q -> Line.t;
  (** [geometry.projections.unproject_ellipse(ellipse, focal_length)]: the
      ambiguous pair, or [False]. *)
  unproject_ellipse : Ellipse.t -> Q -> option (Circle.t * Circle.t);
  (** [geometry.projections.project_circle_into_image_plane(circle,
      focal_length, transform, width, height)]: an ellipse, or [False]. *)
  project_circle_into_image_plane :
    Circle.t -> Q -> bool -> Q -> Q -> option Ellipse.t;
  (** [geometry.intersections.nearest_point_on_sphere_to_line(center, radius,
      origin, direction)]. *)
  nearest_point_on_sphere_to_line : Np.Vec -> Q -> Np.Vec -> Np.Vec -> Np.Vec;
  (** Truth value of a circle in [if circle_3d:]. *)
  Circle_bool : Circle.t -> bool;
  (** [Circle.null()]. *)
  Circle_null : Circle.t;
  (** [Circle.is_null()]. *)
  Circle_is_null : Circle.t -> bool;
  (** [Circle.spherical_representation()]: (phi, theta, r). *)
  spherical_representation : Circle.t -> Q * Q * Q;
  (** [Ellipse.circumference()]. *)
  circumference : Ellipse.t -> Q;
  (** The null sentinel is null. *)
  Circle_null_is_null : Circle_is_null Circle_null = true
}.

(** ** [_ModelUpdateSchedule] (detector_3d.py, lines 597-626) *)

Module Schedule.

Record _ModelUpdateSchedule : Type := make {
  _update_interval : Q;
  _warmup_duration : Q;
  _warmup_start : option Q;
  _paused : bool;
  _last_update : option Q
}.

(** [__init__(update_interval, warmup_duration)]. *)
Definition init (update_interval warmup_duration : Q) : _ModelUpdateSchedule :=
  make update_interval warmup_duration None false None.

Definition pause (self : _ModelUpdateSchedule) : _ModelUpdateSchedule :=
  make (_update_interval self) (_warmup_duration self)
       (_warmup_start self) true (_last_update self).

Definition resume (self : _ModelUpdateSchedule) : _ModelUpdateSchedule :=
  make (_update_interval self) (_warmup_duration self)
       (_warmup_start self) false None.

Definition set_warmup_start (self : _ModelUpdateSchedule) (t : Q) :=
  make (_update_interval self) (_warmup_duration self)
       (Some t) (_paused self) (_last_update self).

Definition set_last_update (self : _ModelUpdateSchedule) (t : Q) :=
  make (_update_interval self) (_warmup_duration self)
       (_warmup_start self) (_paused self) (Some t).

(** [is_update_due(current_time)]: the returned boolean and the schedule
    after the call. *)
Definition is_update_due (self : _ModelUpdateSchedule) (current_time : Q)
  : bool * _ModelUpdateSchedule :=
  if _paused self then (false, self)
  else match _warmup_start self with
       | None => (true, set_warmup_start self current_time)
       | Some warmup_start =>
         if Cmp.ltb (current_time - warmup_start) (_warmup_duration self)
         then (true, self)
         else match _last_update self with
              | None => (true, set_last_update self current_time)
              | Some last_update =>
                if Cmp.gtb (current_time - last_update) (_update_interval self)
                then (true, set_last_update self current_time)
                else (false, self)
              end
       end.

(** A sequence of calls to [is_update_due]: the value each call returned,
    in order, and the schedule after the last one. *)
Fixpoint calls (self : _ModelUpdateSchedule) (times : list Q)
  : list bool * _ModelUpdateSchedule :=
  match times with
  | [] => ([], self)
  | t :: rest =>
    let (due, self') := is_update_due self t in
    let (dues, self'') := calls self' rest in
    (due :: dues, self'')
  end.

(** Whether a call at time [t] falls inside the warmup window opened by the
    first call, at time [t0]. *)
Definition in_warmup (warmup_duration t0 t : Q) : bool :=
  Cmp.ltb (t - t0) warmup_duration.

(** The time of the last call, among calls with the given times and returned
    values, that returned true outside the warmup window ([acc] when there is
    none).  This reads the observable history only, no field of the
    schedule. *)
Fixpoint last_steady_true (warmup_duration t0 : Q) (acc : option Q)
         (times : list Q) (dues : list bool) : option Q :=
  match times, dues with
  | t :: times', due :: dues' =>
    last_steady_true warmup_duration t0
      (if due && negb (in_warmup warmup_duration t0 t) then Some t else acc)
      times' dues'
  | _, _ => acc
  end.

End Schedule.

(** ** The raw pupil datum: the 2D detector's dict-like record *)

Module PupilDatum.

Record ellipse_t : Type := make_ellipse {
  center : Q * Q;
  axes : Q * Q;
  angle : Q
}.

Record t : Type := make {
  ellipse : ellipse_t;
  confidence : Q;
  timestamp : Q
}.

End PupilDatum.

(** ** [TwoSphereModel] (two_sphere_model.py) *)

Module TwoSphere.

Import Np.

Notation "' p <- r ;; k" := (bind r (fun p => k))
  (at level 61, p pattern, r at next level, right associativity).

Record Settings : Type := make_settings {
  focal_length : Q;
  resolution : Q * Q;
  maxlen : Z
}.

(** The fields of an [Observation] that this module reads. *)
Record Observation : Type := make_observation {
  circle_3d_pair : Circle.t * Circle.t;
  timestamp : Q;
  aux_2d : Mat;            (* shape (2, 3) *)
  aux_3d : Mat * Mat;      (* shape (2, 3, 4): one matrix per candidate *)
  gaze_2d : Line.t
}.

(** [observation.Observation.get_Dierkes_line(idx)] (source not
    available). *)
Class ObservationAPI : Type := {
  get_Dierkes_line : Observation -> nat -> Line.t
}.

Record TwoSphereModel : Type := make {
  settings : Settings;
  sphere_center : Vec;
  corrected_sphere_center : Vec
}.

(** An index into an ambiguous pair; the indices met are 0 and 1. *)
Definition pick {A : Type} (idx : nat) (p : A * A) : A :=
  match idx with
  | O => fst p
  | S _ => snd p
  end.

(** [_extract_ellipse(pupil_datum)], lines 57-67. *)
Definition _extract_ellipse (self : TwoSphereModel) (pupil_datum : PupilDatum.t)
  : Ellipse.t :=
  let '(width, height) := resolution (settings self) in
  let e := PupilDatum.ellipse pupil_datum in
  let center :=
      [ (fst (PupilDatum.center e) - width / 2);
        - (snd (PupilDatum.center e) - height / 2) ] in
  let minor_axis := fst (PupilDatum.axes e) / 2 in
  let major_axis := snd (PupilDatum.axes e) / 2 in
  let angle := - (PupilDatum.angle e + 90) * Np.pi / 180 in
  Ellipse.make center minor_axis major_axis angle.

Section WithGeometry.

Context {G : Geometry} {L : Lib}.

(** The value tested by [_disambiguate_circle_3d_pair]:
    [np.dot(circle_center_2d - sphere_center_2d, circle_normal_2d)]. *)
Definition disambiguation_dot (self : TwoSphereModel)
           (circle_3d_pair : Circle.t * Circle.t) : Q :=
  let f := focal_length (settings self) in
  let c0 := fst circle_3d_pair in
  let circle_center_2d := project_point_into_image_plane (Circle.center c0) f in
  let circle_normal_2d :=
      normalize
        (Line.direction
           (project_line_into_image_plane
              (Line.make (Circle.center c0) (Circle.normal c0)) f)) in
  let sphere_center_2d := project_point_into_image_plane (sphere_center self) f in
  dot (vsub circle_center_2d sphere_center_2d) circle_normal_2d.

(** [_disambiguate_circle_3d_pair(circle_3d_pair)], lines 198-215. *)
Definition _disambiguate_circle_3d_pair (self : TwoSphereModel)
           (circle_3d_pair : Circle.t * Circle.t) : Circle.t :=
  if Cmp.geb (disambiguation_dot self circle_3d_pair) 0
  then fst circle_3d_pair
  else snd circle_3d_pair.

(** [_extract_unproject_disambiguate(pupil_datum)], lines 189-196. *)
Definition _extract_unproject_disambiguate (self : TwoSphereModel)
           (pupil_datum : PupilDatum.t) : Circle.t :=
  let ellipse := _extract_ellipse self pupil_datum in
  match unproject_ellipse ellipse (focal_length (settings self)) with
  | Some circle_3d_pair => _disambiguate_circle_3d_pair self circle_3d_pair
  | None => Circle.make [0; 0; 0] [0; 0; -(1)] 0
  end.

(** The argument [input_] of [predict_pupil_circle] is a circle pair when
    [from_given_circle_3d_pair] is set and a pupil datum otherwise. *)
Inductive predict_input : Type :=
| from_given_circle_3d_pair (circle_3d_pair : Circle.t * Circle.t)
| from_pupil_datum (pupil_datum : PupilDatum.t).

(** [predict_pupil_circle(input_, from_given_circle_3d_pair,
    use_unprojection)], lines 217-239. *)
Definition predict_pupil_circle (self : TwoSphereModel) (input_ : predict_input)
           (use_unprojection : bool) : Circle.t :=
  let circle_3d :=
      match input_ with
      | from_given_circle_3d_pair circle_3d_pair =>
        _disambiguate_circle_3d_pair self circle_3d_pair
      | from_pupil_datum pupil_datum =>
        _extract_unproject_disambiguate self pupil_datum
      end in
  if Circle_bool circle_3d then
    let direction := normalize (Circle.center circle_3d) in
    let nearest_point_on_sphere :=
        nearest_point_on_sphere_to_line
          (sphere_center self) _EYE_RADIUS_DEFAULT [0; 0; 0] direction in
    let gaze_vector :=
        if use_unprojection then Circle.normal circle_3d
        else normalize (vsub nearest_point_on_sphere (sphere_center self)) in
    let radius :=
        norm nearest_point_on_sphere / norm (Circle.center circle_3d) in
    Circle.make nearest_point_on_sphere gaze_vector radius
  else Circle.make [0; 0; 0] [0; 0; -(1)] 0.

End WithGeometry.

(** *** [deep_sphere_estimate], lines 90-186 *)

(** The module-level names [prev_center], [prev_disambiguation] and [prev_t]
    that [deep_sphere_estimate] declares [global]: they are bound together,
    so the state of the module is either nothing (unbound, or None after the
    [NameError] branch) or the record of the last fit. *)
Record Prev : Type := make_prev {
  prev_center : Vec;
  prev_disambiguation : list nat;
  prev_t : Q
}.

Definition Globals : Type := option Prev.

Record DebugInfo : Type := make_debug {
  residuals : list Q;
  cost : Q;
  directions : list Vec
}.

Section DeepSphereEstimate.

Context {L : Lib} {O : ObservationAPI}.

(** [residuals] of the previous fit over the passed observations. *)
Definition prev_residuals (prev : Prev) (observations : list Observation)
  : list Q :=
  let zipped := combine observations (prev_disambiguation prev) in
  let Dierkes_lines := map (fun '(obs, idx) => get_Dierkes_line obs idx) zipped in
  let a_minus_p :=
      map (fun line => vsub (Line.origin line) (prev_center prev)) Dierkes_lines in
  map (fun '(v, m, idx) => quad_form v (block 3 3 (pick idx m)))
      (combine (combine a_minus_p (map aux_3d observations))
               (prev_disambiguation prev)).

(** [debug_info["cost"]]. *)
Definition prev_cost (prev : Prev) (observations : list Observation) : Q :=
  mean (prev_residuals prev observations).

Definition prev_directions (prev : Prev) (observations : list Observation)
  : list Vec :=
  map (fun '(obs, idx) =>
         let vector := Circle.normal (pick idx (circle_3d_pair obs)) in
         firstn 2 (vdiv vector (norm vector)))
      (combine observations (prev_disambiguation prev)).

Definition prev_debug_info (prev : Prev) (observations : list Observation)
  : DebugInfo :=
  make_debug (prev_residuals prev observations)
             (prev_cost prev observations)
             (prev_directions prev observations).

(** [np.argmax(np.gradient(median_filter(residuals, 50)))]. *)
Definition max_change_idx (residuals : list Q) : result nat :=
  changes <- gradient (median_filter residuals 50) ;;
  argmax changes.

(** [[obs for obs in observations if obs.timestamp >= cutoff]]. *)
Definition keep_from (cutoff : Q) (observations : list Observation)
  : list Observation :=
  filter (fun obs => Cmp.geb (timestamp obs) cutoff) observations.

(** Lines 114-156: the observations that go into the fit, the cutoff and the
    debug record. *)
Definition select_observations (g : Globals) (observations : list Observation)
  : result (list Observation * option Q * option DebugInfo) :=
  match g with
  | None => Ok (observations, None, None)
  | Some prev =>
    let debug_info := prev_debug_info prev observations in
    if Cmp.gtb (cost debug_info) 2 then
      idx <- max_change_idx (residuals debug_info) ;;
      match nth_error observations idx with
      | None => Raise IndexError
      | Some obs =>
        let cutoff := timestamp obs in
        Ok (keep_from cutoff observations, Some cutoff, Some debug_info)
      end
    else Ok (observations, None, Some debug_info)
  end.

(** [np.sum(gaze_2d_towards_center * gaze_2d_directions, axis=1)]. *)
Definition dot_products (projected_sphere_center : Vec)
           (observations : list Observation) : list Q :=
  let gaze_2d :=
      map (fun obs => Line.origin (gaze_2d obs) ++ Line.direction (gaze_2d obs))
          observations in
  let gaze_2d_origins := map (firstn 2) gaze_2d in
  let gaze_2d_directions := map (skipn 2) gaze_2d in
  let gaze_2d_towards_center :=
      map (fun o => vsub o projected_sphere_center) gaze_2d_origins in
  map2 (fun a b => sum (map2 Qmult a b))
       gaze_2d_towards_center gaze_2d_directions.

(** [np.where(dot_products < 0, 1, 0)]. *)
Definition disambiguation_indices (dot_products : list Q) : list nat :=
  map (fun d => if Cmp.ltb d 0 then 1%nat else 0%nat) dot_products.

(** [projected_sphere_center], lines 160-161. *)
Definition projected_center (observations : list Observation) : result Vec :=
  match sum_axis0 (map aux_2d observations) with
  | None => Raise IndexError
  | Some sum_aux_2d =>
    p <- pinv (block 2 2 sum_aux_2d) ;;
    Ok (mat_vec p (column 2 2 sum_aux_2d))
  end.

(** Lines 158-180, "ESTIMATE NEW MODEL": the sphere center and the
    disambiguation indices. *)
Definition estimate_new_model (observations : list Observation)
  : result (Vec * list nat) :=
  projected_sphere_center <- projected_center observations ;;
  let indices :=
      disambiguation_indices (dot_products projected_sphere_center observations) in
  let aux_3d_disambiguated :=
      map2 (fun m idx => pick idx m) (map aux_3d observations) indices in
  match sum_axis0 aux_3d_disambiguated with
  | None => Raise IndexError
  | Some sum_aux_3d =>
    p <- pinv (block 3 3 sum_aux_3d) ;;
    Ok (mat_vec p (column 3 3 sum_aux_3d), indices)
  end.

(** [deep_sphere_estimate(observations)]: what the call returns or raises,
    and the module globals after it.  The globals are assigned on the last
    lines only, so a call that raises leaves them as they were. *)
Definition deep_sphere_estimate (g : Globals) (observations : list Observation)
  : result (Vec * option Q * option DebugInfo) * Globals :=
  let outcome :=
      '(kept, cutoff, debug_info) <- select_observations g observations ;;
      '(sphere_center, indices) <- estimate_new_model kept ;;
      Ok (sphere_center, cutoff, debug_info,
          make_prev sphere_center indices (last (map timestamp kept) 0)) in
  match outcome with
  | Ok (sphere_center, cutoff, debug_info, prev) =>
    (Ok (sphere_center, cutoff, debug_info), Some prev)
  | Raise e => (Raise e, g)
  end.




End DeepSphereEstimate.

End TwoSphere.

(** ** [Detector3D] (detector_3d.py) *)

Module Detector.

Import Np.

(** [camera.CameraModel]: the opaque record of the spec, focal length and
    resolution. *)
Record CameraModel : Type := make_camera {
  focal_length : Q;
  resolution : Q * Q
}.

(** Modelled from the spec: [observation.Observation] (source not
    available), with the fields the orchestrator reads and writes.
    [confidence] starts as the 2D detector's confidence and may be overwritten
    by the 3D search; [confidence_2d] keeps the original. *)
Record Observation : Type := make_observation {
  ellipse : Ellipse.t;
  confidence : Q;
  confidence_2d : Q;
  timestamp : Q;
  observation_focal_length : Q
}.

(** [Observation(ellipse, confidence, timestamp, focal_length)]. *)
Definition Observation_init (ellipse : Ellipse.t) (confidence timestamp focal_length : Q)
  : Observation :=
  make_observation ellipse confidence confidence timestamp focal_length.

Definition set_confidence (observation : Observation) (c : Q) : Observation :=
  make_observation (ellipse observation) c (confidence_2d observation)
                   (timestamp observation) (observation_focal_length observation).

(** [self._settings]. *)
Record Settings : Type := make_settings {
  threshold_swirski : Q;
  threshold_kalman : Q;
  threshold_short_term : Q;
  threshold_long_term : Q;
  long_term_buffer_size : Z;
  long_term_forget_time : Q;
  long_term_forget_observations : Z;
  model_update_interval_long_term : Q;
  model_update_interval_ult_long_term : Q;
  model_warmup_duration : Q
}.

(** The defaults of [Detector3D.__init__]. *)
Definition default_settings : Settings :=
  make_settings (7 # 10) (98 # 100) (8 # 10) (98 # 100) 30 5 300 1 10 5.

Record SphereCenterEstimates : Type := make_estimates {
  projected : Vec;
  three_dim : Vec
}.

Record Prediction : Type := make_prediction {
  prediction_sphere_center : Vec;
  pupil_circle : Circle.t
}.

Record Search3DResult : Type := make_search_result {
  circle : Circle.t;
  search_confidence : Q
}.

(** [eye_model.TwoSphereModelAbstract] (source not available): one model
    tier.  [estimate_sphere_center(from_2d, prior_3d, prior_strength)] gives
    the tier after the call and either the estimates or the exception of its
    least-squares solve. *)
Class EyeModel : Type := {
  Model : Type;
  add_observation : Model -> Observation -> Model;
  n_observations : Model -> Z;
  estimate_sphere_center :
    Model -> option Vec -> option Vec -> Q ->
    Model * result SphereCenterEstimates;
  sphere_center : Model -> Vec;
  corrected_sphere_center : Model -> Vec;
  projected_sphere_center : Model -> Vec;
  mean_observation_circularity : Model -> Q;
  predict_pupil_circle : Model -> Observation -> Circle.t
}.

(** [kalman.KalmanFilter] (source not available).  The filter is a
    deterministic object, so it is represented by the calls made on it, the
    latest first; what [predict] answers is a function of that history. *)
Inductive KalmanCall : Type :=
| predict (timestamp : Q)
| correct (phi theta r : Q).

Definition KalmanFilter : Type := list KalmanCall.

Class Kalman : Type := {
  predict_value : KalmanFilter -> Q -> Q * Q * Q
}.

(** [cpp.pupil_detection_3d] (source not available). *)
Class Search : Type := {
  Frame : Type;
  Edge : Type;
  Roi : Type;
  (** [get_edges(frame, normal, radius, sphere_center, eye_radius,
      focal_length, resolution, major_axis_factor)]:
      (frame, frame_roi, edge_frame, edges, roi). *)
  get_edges :
    Frame -> Vec -> Q -> Vec -> Q -> Q -> Q * Q -> Q ->
    Frame * Frame * Frame * list Edge * Roi;
  (** [search_on_sphere(edges, normal, radius, sphere_center, eye_radius,
      focal_length, resolution)]:
      (gaze_vector, pupil_radius, final_edges, edges_on_sphere). *)
  search_on_sphere :
    list Edge -> Vec -> Q -> Vec -> Q -> Q -> Q * Q ->
    Vec * Q * list Edge * list Edge
}.

(** What the module's [logger] received. *)
Inductive LogRecord : Type :=
| log_error_updating_models   (* logger.error("Error updating models:") *)
| log_debug_traceback (e : exn). (* logger.debug(traceback.format_exc()) *)

(** [sigmoid(x, baseline=0.1, amplitude=500.0, center=0.99, width=0.02)]. *)
Definition sigmoid {L : Lib} (x : Q) : Q :=
  let baseline := 1 # 10 in
  let amplitude := 500 in
  let center := 99 # 100 in
  let width := 2 # 100 in
  baseline + amplitude * 1 / (1 + exp (- (x - center) / width)).

Section WithCollaborators.

Context {L : Lib} {G : Geometry} {E : EyeModel} {K : Kalman} {S : Search}.

Record Detector3D : Type := make {
  camera : CameraModel;
  _settings : Settings;
  short_term_model : Model;
  long_term_model : Model;
  ultra_long_term_model : Model;
  _long_term_schedule : Schedule._ModelUpdateSchedule;
  _ult_long_term_schedule : Schedule._ModelUpdateSchedule;
  kalman_filter : KalmanFilter;
  logger : list LogRecord
}.

Definition set_short_term_model (d : Detector3D) (m : Model) : Detector3D :=
  make (camera d) (_settings d) m (long_term_model d) (ultra_long_term_model d)
       (_long_term_schedule d) (_ult_long_term_schedule d)
       (kalman_filter d) (logger d).

Definition set_long_term_model (d : Detector3D) (m : Model) : Detector3D :=
  make (camera d) (_settings d) (short_term_model d) m (ultra_long_term_model d)
       (_long_term_schedule d) (_ult_long_term_schedule d)
       (kalman_filter d) (logger d).

Definition set_ultra_long_term_model (d : Detector3D) (m : Model) : Detector3D :=
  make (camera d) (_settings d) (short_term_model d) (long_term_model d) m
       (_long_term_schedule d) (_ult_long_term_schedule d)
       (kalman_filter d) (logger d).

Definition set_long_term_schedule (d : Detector3D)
           (s : Schedule._ModelUpdateSchedule) : Detector3D :=
  make (camera d) (_settings d) (short_term_model d) (long_term_model d)
       (ultra_long_term_model d) s (_ult_long_term_schedule d)
       (kalman_filter d) (logger d).

Definition set_ult_long_term_schedule (d : Detector3D)
           (s : Schedule._ModelUpdateSchedule) : Detector3D :=
  make (camera d) (_settings d) (short_term_model d) (long_term_model d)
       (ultra_long_term_model d) (_long_term_schedule d) s
       (kalman_filter d) (logger d).

Definition set_kalman_filter (d : Detector3D) (k : KalmanFilter) : Detector3D :=
  make (camera d) (_settings d) (short_term_model d) (long_term_model d)
       (ultra_long_term_model d) (_long_term_schedule d)
       (_ult_long_term_schedule d) k (logger d).

Definition log_records (d : Detector3D) (records : list LogRecord) : Detector3D :=
  make (camera d) (_settings d) (short_term_model d) (long_term_model d)
       (ultra_long_term_model d) (_long_term_schedule d)
       (_ult_long_term_schedule d) (kalman_filter d) (logger d ++ records).

(** *** A state monad with exceptions for the methods of the detector

    A method runs on the detector and leaves a detector behind whether it
    returns or raises: what was assigned before the exception stays
    assigned. *)
Definition M (A : Type) : Type := Detector3D -> Detector3D * result A.

Definition ret {A : Type} (a : A) : M A := fun d => (d, Ok a).

Definition bindM {A B : Type} (m : M A) (k : A -> M B) : M B :=
  fun d =>
    match m d with
    | (d', Ok a) => k a d'
    | (d', Raise e) => (d', Raise e)
    end.

Definition get : M Detector3D := fun d => (d, Ok d).

Definition modify (f : Detector3D -> Detector3D) : M unit :=
  fun d => (f d, Ok tt).

(** [try: body except Exception: handler]. *)
Definition try_except (body : M unit) (handler : exn -> M unit) : M unit :=
  fun d =>
    match body d with
    | (d', Ok tt) => (d', Ok tt)
    | (d', Raise e) => handler e d'
    end.

Notation "x <-- m ;;; k" := (bindM m (fun x => k))
  (at level 61, m at next level, right associativity).
Notation "m ;;; k" := (bindM m (fun _ => k))
  (at level 61, right associativity).

(** [self._ult_long_term_schedule.is_update_due(t)] and its long-term
    twin. *)
Definition ult_long_term_is_update_due (t : Q) : M bool :=
  fun d =>
    let (due, s) := Schedule.is_update_due (_ult_long_term_schedule d) t in
    (set_ult_long_term_schedule d s, Ok due).

Definition long_term_is_update_due (t : Q) : M bool :=
  fun d =>
    let (due, s) := Schedule.is_update_due (_long_term_schedule d) t in
    (set_long_term_schedule d s, Ok due).

(** [self.ultra_long_term_model.estimate_sphere_center()]. *)
Definition ultra_long_term_estimate : M SphereCenterEstimates :=
  fun d =>
    let (m, r) := estimate_sphere_center (ultra_long_term_model d) None None 0 in
    (set_ultra_long_term_model d m, r).

(** [self.long_term_model.estimate_sphere_center(prior_3d=..., prior_strength=0.1)]. *)
Definition long_term_estimate : M SphereCenterEstimates :=
  fun d =>
    let prior_3d := sphere_center (ultra_long_term_model d) in
    let (m, r) :=
        estimate_sphere_center (long_term_model d) None (Some prior_3d) (1 # 10) in
    (set_long_term_model d m, r).

(** [self.short_term_model.estimate_sphere_center(from_2d=..., prior_3d=...,
    prior_strength=...)]. *)
Definition short_term_estimate (from_2d prior_3d : Vec) (prior_strength : Q)
  : M SphereCenterEstimates :=
  fun d =>
    let (m, r) :=
        estimate_sphere_center (short_term_model d)
                               (Some from_2d) (Some prior_3d) prior_strength in
    (set_short_term_model d m, r).

(** The body of the [try] of [update_models], lines 273-298. *)
Definition fitting_sequence (observation : Observation) : M unit :=
  due_ult <-- ult_long_term_is_update_due (timestamp observation) ;;;
  (if due_ult : bool
   then (_ <-- ultra_long_term_estimate ;;; ret tt)
   else ret tt) ;;;
  due_lt <-- long_term_is_update_due (timestamp observation) ;;;
  estimate <--
    (if due_lt : bool
     then long_term_estimate
     else (d <-- get ;;;
           ret (make_estimates (projected_sphere_center (long_term_model d))
                               (sphere_center (long_term_model d))))) ;;;
  d <-- get ;;;
  let circularity_mean := mean_observation_circularity (short_term_model d) in
  _ <-- short_term_estimate (projected estimate) (three_dim estimate)
                            (sigmoid circularity_mean) ;;;
  ret tt.

(** The three [add_observation] calls of lines 261-263. *)
Definition add_to_storages (observation : Observation) (d : Detector3D)
  : Detector3D :=
  let d := set_short_term_model d (add_observation (short_term_model d) observation) in
  let d := set_long_term_model d (add_observation (long_term_model d) observation) in
  set_ultra_long_term_model d (add_observation (ultra_long_term_model d) observation).

(** Whether all three storages hold an observation (the negation of the
    test of lines 265-269). *)
Definition storages_non_empty (d : Detector3D) : bool :=
  negb ((n_observations (short_term_model d) <=? 0)%Z
        || (n_observations (long_term_model d) <=? 0)%Z
        || (n_observations (ultra_long_term_model d) <=? 0)%Z).

(** [update_models(observation)], lines 260-303. *)
Definition update_models (observation : Observation) : M unit :=
  modify (add_to_storages observation) ;;;
  d <-- get ;;;
  if storages_non_empty d then
    try_except
      (fitting_sequence observation)
      (fun e => modify (fun d =>
         log_records d [log_error_updating_models; log_debug_traceback e]))
  else ret tt.

(** [_extract_observation(pupil_datum)], lines 305-321. *)
Definition _extract_observation (d : Detector3D) (pupil_datum : PupilDatum.t)
  : Observation :=
  let '(width, height) := resolution (camera d) in
  let e := PupilDatum.ellipse pupil_datum in
  let center :=
      [ fst (PupilDatum.center e) - width / 2;
        snd (PupilDatum.center e) - height / 2 ] in
  let minor_axis := fst (PupilDatum.axes e) / 2 in
  let major_axis := snd (PupilDatum.axes e) / 2 in
  let angle := (PupilDatum.angle e - 90) * Np.pi / 180 in
  let ellipse := Ellipse.make center minor_axis major_axis angle in
  Observation_init ellipse
                   (PupilDatum.confidence pupil_datum)
                   (PupilDatum.timestamp pupil_datum)
                   (focal_length (camera d)).

(** [_predict_from_kalman_filter(timestamp)], lines 358-368. *)
Definition _predict_from_kalman_filter (timestamp : Q) : M Circle.t :=
  fun d =>
    let '(phi, theta, pupil_radius_kalman) :=
        predict_value (kalman_filter d) timestamp in
    let d' := set_kalman_filter d (predict timestamp :: kalman_filter d) in
    let gaze_vector_kalman := sph2cart phi theta in
    let pupil_center_kalman :=
        vadd (sphere_center (short_term_model d'))
             (vscale _EYE_RADIUS_DEFAULT gaze_vector_kalman) in
    (d', Ok (Circle.make pupil_center_kalman gaze_vector_kalman
                         pupil_radius_kalman)).

(** [_correct_kalman_filter(observed_pupil_circle)], lines 370-375. *)
Definition _correct_kalman_filter (observed_pupil_circle : Circle.t) : M unit :=
  fun d =>
    if Circle_is_null observed_pupil_circle then (d, Ok tt)
    else
      let '(phi, theta, r) := spherical_representation observed_pupil_circle in
      (set_kalman_filter d (correct phi theta r :: kalman_filter d), Ok tt).

(** The confidence of a search, lines 454-470. *)
Definition confidence_3d_search (d : Detector3D) (pupil_circle : Circle.t)
           (final_edges : list Edge) : Q :=
  if Circle_is_null pupil_circle then 0
  else
    match project_circle_into_image_plane
            pupil_circle (focal_length (camera d)) false
            (fst (resolution (camera d))) (snd (resolution (camera d))) with
    | Some ellipse_2d =>
      clip (inject_Z (Z.of_nat (length final_edges)) / circumference ellipse_2d)
           0 1
    | None => 0
    end.

(** [_predict_from_3d_search(frame, best_guess, debug)], lines 377-472.
    The [debug] branch only draws into a window inside its own
    [try]/[except]; it leaves no trace in the result. *)
Definition _predict_from_3d_search (d : Detector3D) (frame : Frame)
           (best_guess : Circle.t) (debug : bool) : Search3DResult :=
  let no_result := make_search_result Circle_null 0 in
  if Circle_is_null best_guess then no_result
  else
    let '(frame', frame_roi, edge_frame, edges, roi) :=
        get_edges frame (Circle.normal best_guess) (Circle.radius best_guess)
                  (sphere_center (long_term_model d)) _EYE_RADIUS_DEFAULT
                  (focal_length (camera d)) (resolution (camera d)) (25 # 10) in
    if (Z.of_nat (length edges) <=? 0)%Z then no_result
    else
      let '(gaze_vector, pupil_radius, final_edges, edges_on_sphere) :=
          search_on_sphere edges (Circle.normal best_guess)
                           (Circle.radius best_guess)
                           (sphere_center (long_term_model d)) _EYE_RADIUS_DEFAULT
                           (focal_length (camera d)) (resolution (camera d)) in
      let pupil_center :=
          vadd (sphere_center (long_term_model d))
               (vscale _EYE_RADIUS_DEFAULT gaze_vector) in
      let pupil_circle := Circle.make pupil_center gaze_vector pupil_radius in
      make_search_result pupil_circle
                         (confidence_3d_search d pupil_circle final_edges).

(** [_predict_pupil_circle(observation, frame)], lines 323-356: the pupil
    circle, and the observation after the call (its confidence is
    mutable). *)
Definition _predict_pupil_circle (observation : Observation) (frame : Frame)
  : M (Circle.t * Observation) :=
  pupil_circle_kalman <-- _predict_from_kalman_filter (timestamp observation) ;;;
  d <-- get ;;;
  let '(pupil_circle, observation') :=
      if Cmp.gtb (confidence observation) (threshold_swirski (_settings d)) then
        let short_term := predict_pupil_circle (short_term_model d) observation in
        let long_term := predict_pupil_circle (long_term_model d) observation in
        (Circle.make (Circle.center long_term) (Circle.normal short_term)
                     (Circle.radius long_term),
         observation)
      else
        let found := _predict_from_3d_search d frame pupil_circle_kalman false in
        (circle found, set_confidence observation (search_confidence found)) in
  (if Cmp.gtb (confidence observation') (threshold_kalman (_settings d))
   then _correct_kalman_filter pupil_circle
   else ret tt) ;;;
  ret (pupil_circle, observation').

End WithCollaborators.

End Detector.

(** ** Concrete collaborators for the examples

    The theorems of part II hold for every instance of the interfaces above.
    The instances below are what the witnesses and counterexamples run on.
    They are rational stand-ins: exact where the function is rational,
    truncated where it is not, and scripted where the collaborator is a whole
    class of the package. *)

Module Example.

Import Np.

(** *** numpy and scipy

    A float has one representation; so that the examples compute with small
    numbers, the stand-ins below put the fractions they return in lowest
    terms ([Qred], which keeps the value). *)

Definition vred (v : Vec) : Vec := map Qred v.
Definition mred (m : Mat) : Mat := map vred m.

(** A square root on [Q]: the floor of the root at 30 fractional bits; exact
    on the squares of rationals. *)
Definition Qsqrt (q : Q) : Q :=
  let n := Qnum q in
  let d := Qden q in
  if (n <=? 0)%Z then 0
  else Qred (Qmake (Z.sqrt (n * Zpos d * 4 ^ 30)) (d * 2 ^ 30)%positive).

Definition norm (v : Vec) : Q := Qsqrt (dot v v).

(** Partial sums of a power series: [sum_{k < n} term_k], with
    [term_{k+1} = step k term_k]. *)
Fixpoint series (n : nat) (k : Z) (term : Q) (step : Z -> Q -> Q) : Q :=
  match n with
  | O => 0
  | S n' => term + series n' (k + 1)%Z (step k term) step
  end.

(** [np.exp], truncated after twelve terms. *)
Definition exp (x : Q) : Q :=
  series 12 0%Z 1 (fun k term => term * x / inject_Z (k + 1)).

Definition sin (x : Q) : Q :=
  series 8 0%Z x
         (fun k term => - term * x * x / inject_Z ((2 * k + 2) * (2 * k + 3))).

Definition cos (x : Q) : Q :=
  series 8 0%Z 1
         (fun k term => - term * x * x / inject_Z ((2 * k + 1) * (2 * k + 2))).

Definition identity (n : nat) : Mat :=
  map (fun i => map (fun j => if Nat.eqb i j then 1 else 0) (seq 0 n)) (seq 0 n).

Definition transpose (cols : nat) (m : Mat) : Mat :=
  map (fun j => map (fun row => nth j row 0) m) (seq 0 cols).

Definition matmul (a b : Mat) : Mat :=
  let bt := transpose (length (hd [] b)) b in
  map (fun row => map (fun col => Qred (dot row col)) bt) a.

Definition trace (m : Mat) : Q :=
  sum (map (fun i => nth i (nth i m []) 0) (seq 0 (length m))).

Definition msub (a b : Mat) : Mat := map2 vsub a b.

(** The Moore-Penrose inverse of a symmetric positive semi-definite matrix
    [s] with at most three rows, from the coefficients [c1], [c2], [c3] of
    its characteristic polynomial (the elementary symmetric functions of its
    eigenvalues): the cases are rank 3, 2, 1 and 0. *)
Definition pinv_psd (s : Mat) : Mat :=
  let s2 := matmul s s in
  let s3 := matmul s2 s in
  let p1 := Qred (trace s) in
  let p2 := Qred (trace s2) in
  let p3 := Qred (trace s3) in
  let c1 := p1 in
  let c2 := Qred ((p1 * p1 - p2) / 2) in
  let c3 := Qred ((p1 * p1 * p1 - 3 * p1 * p2 + 2 * p3) / 6) in
  mred
    (if negb (Qeq_bool c3 0) then
       mscale (/ c3) (madd (msub s2 (mscale c1 s)) (mscale c2 (identity (length s))))
     else if negb (Qeq_bool c2 0) then
       mscale (/ (c2 * c2)) (msub (mscale (c1 * c1 - c2) s) (mscale c1 s2))
     else if negb (Qeq_bool c1 0) then
       mscale (/ (c1 * c1)) s
     else mscale 0 s).

(** [np.linalg.pinv] in exact arithmetic, for matrices with at most three
    columns (the code takes it of 2x2 and 3x3 blocks):
    [pinv a = pinv (a.T a) a.T].  The exact inverse never fails. *)
Definition pinv (a : Mat) : result Mat :=
  let a := mred a in
  let at_ := transpose (length (hd [] a)) a in
  Ok (matmul (pinv_psd (matmul at_ a)) at_).

Fixpoint insert_sorted (x : Q) (l : list Q) : list Q :=
  match l with
  | [] => [x]
  | y :: t => if Qle_bool x y then x :: l else y :: insert_sorted x t
  end.

Definition sort (l : list Q) : list Q := fold_right insert_sorted [] l.

(** The sample at position [j] of an input extended by reflection about its
    edges ([mode='reflect']: d c b a | a b c d | d c b a). *)
Definition reflect (input : list Q) (j : Z) : Q :=
  let n := Z.of_nat (length input) in
  let r := (j mod (2 * n))%Z in
  let i := if (r <? n)%Z then r else (2 * n - 1 - r)%Z in
  nth (Z.to_nat i) input 0.

(** [scipy.ndimage.median_filter(input, size)] in one dimension with the
    default mode and origin: the window of sample [i] spans the positions
    [i - size // 2 .. i - size // 2 + size - 1], and the answer is the element
    of rank [size // 2] of the sorted window. *)
Definition median_filter (input : list Q) (size : nat) : list Q :=
  map (fun i =>
         let start := (Z.of_nat i - Z.of_nat (size / 2))%Z in
         let window :=
             map (fun k => reflect input (start + Z.of_nat k)) (seq 0 size) in
         nth (size / 2) (sort window) 0)
      (seq 0 (length input)).

#[global] Instance lib : Lib :=
  Np.Build_Lib
    norm exp pinv median_filter
    (fun input size =>
       eq_trans (length_map _ (seq 0 (length input)))
                (length_seq (length input) 0)).

(** *** geometry *)

(** Modelled from the spec: [geometry.utilities.normalize], a vector over
    its norm. *)
Definition normalize (v : Vec) : Vec := vred (vdiv v (norm v)).

(** Modelled from the spec: the pinhole projection of a point,
    [focal_length * (x, y) / z]. *)
Definition project_point_into_image_plane (point : Vec) (focal_length : Q) : Vec :=
  let z := nth 2 point 0 in
  [focal_length * nth 0 point 0 / z; focal_length * nth 1 point 0 / z].

(** Modelled from the spec: a line is projected through two of its points. *)
Definition project_line_into_image_plane (line : Line.t) (focal_length : Q)
  : Line.t :=
  let p1 := project_point_into_image_plane (Line.origin line) focal_length in
  let p2 := project_point_into_image_plane
              (vadd (Line.origin line) (Line.direction line)) focal_length in
  Line.make p1 (vsub p2 p1).

(** Modelled from the spec ("a line's closest point to a sphere surface along
    a ray"): the first intersection of the ray with the sphere when there is
    one, and otherwise the point of the sphere nearest to the line.  The
    direction is a unit vector. *)
Definition nearest_point_on_sphere_to_line (center : Vec) (radius : Q)
           (origin direction : Vec) : Vec :=
  let oc := vsub origin center in
  let b := dot direction oc in
  let disc := b * b - (dot oc oc - radius * radius) in
  if Cmp.geb disc 0 then vadd origin (vscale (- b - Qsqrt disc) direction)
  else
    let foot := vadd origin (vscale (- b) direction) in
    vadd center (vscale radius (normalize (vsub foot center))).

(** Modelled from the spec: the null sentinel has zero normal and zero
    radius, and a circle is null when its radius or its normal is zero. *)
Definition Circle_null : Circle.t := Circle.make [0; 0; 0] [0; 0; 0] 0.

Definition Circle_is_null (c : Circle.t) : bool :=
  Qeq_bool (Circle.radius c) 0 || forallb (fun x => Qeq_bool x 0) (Circle.normal c).

(** The cone solver is not modelled: this instance finds no solution for any
    ellipse, so the examples hand the circle pair over themselves. *)
Definition unproject_ellipse (ellipse : Ellipse.t) (focal_length : Q)
  : option (Circle.t * Circle.t) := None.

(** The projection of a circle that faces the camera (normal along the
    optical axis) is a circle; other poses are not modelled and are reported
    as failed projections. *)
Definition project_circle_into_image_plane (c : Circle.t) (focal_length : Q)
           (transform : bool) (width height : Q) : option Ellipse.t :=
  let z := nth 2 (Circle.center c) 0 in
  if Qeq_bool (nth 0 (Circle.normal c) 0) 0
     && Qeq_bool (nth 1 (Circle.normal c) 0) 0 && Cmp.gtb z 0
  then
    let p := project_point_into_image_plane (Circle.center c) focal_length in
    let p := if transform then vadd p [width / 2; height / 2] else p in
    let r := focal_length * Circle.radius c / z in
    Some (Ellipse.make p r r 0)
  else None.

(** Ramanujan's approximation of the circumference of an ellipse. *)
Definition circumference (e : Ellipse.t) : Q :=
  let a := Ellipse.minor_radius e in
  let b := Ellipse.major_radius e in
  Np.pi * Qabs (3 * (a + b) - Qsqrt (10 * a * b + 3 * (a * a + b * b))).

(** [sph2cart] by the truncated series above. *)
Definition sph2cart (phi theta : Q) : Vec :=
  [sin theta * cos phi; cos theta; sin theta * sin phi].

(** A stand-in for the angles of a normal: its first two components. *)
Definition spherical_representation (c : Circle.t) : Q * Q * Q :=
  (nth 0 (Circle.normal c) 0, nth 1 (Circle.normal c) 0, Circle.radius c).

#[global] Instance geometry : Geometry :=
  Build_Geometry
    (10392304845413264 # 1000000000000000)
    normalize
    sph2cart
    project_point_into_image_plane
    project_line_into_image_plane
    unproject_ellipse
    project_circle_into_image_plane
    nearest_point_on_sphere_to_line
    (fun c => negb (Circle_is_null c))
    Circle_null
    Circle_is_null
    spherical_representation
    circumference
    eq_refl.

(** Modelled from the spec (glossary): the Dierkes line of a candidate circle
    runs through its center along its normal. *)
#[global] Instance observation_api : TwoSphere.ObservationAPI :=
  {| TwoSphere.get_Dierkes_line := fun obs idx =>
       let c := TwoSphere.pick idx (TwoSphere.circle_3d_pair obs) in
       Line.make (Circle.center c) (Circle.normal c) |}.

(** *** A scripted model tier

    A tier whose answers are written down in advance: the outcome of its next
    least-squares solve, the circle it predicts, its circularity.  Its
    storage is a count, and takes an observation whose confidence reaches the
    tier's threshold.  A solve that succeeds installs the new estimates; a
    solve that raises leaves the tier as it was. *)
Record Tier : Type := make_tier {
  tier_threshold : Q;
  tier_center : Vec;
  tier_corrected : Vec;
  tier_projected : Vec;
  tier_count : Z;
  tier_circularity : Q;
  tier_next_solve : result Detector.SphereCenterEstimates;
  tier_prediction : Circle.t
}.

Definition tier_add (m : Tier) (o : Detector.Observation) : Tier :=
  if Cmp.geb (Detector.confidence o) (tier_threshold m) then
    make_tier (tier_threshold m)
              (tier_center m) (tier_corrected m) (tier_projected m)
              (tier_count m + 1) (tier_circularity m) (tier_next_solve m)
              (tier_prediction m)
  else m.

Definition tier_estimate (m : Tier) (from_2d prior_3d : option Vec)
           (prior_strength : Q) : Tier * result Detector.SphereCenterEstimates :=
  match tier_next_solve m with
  | Ok est =>
    (make_tier (tier_threshold m)
               (Detector.three_dim est) (Detector.three_dim est)
               (Detector.projected est) (tier_count m) (tier_circularity m)
               (tier_next_solve m) (tier_prediction m),
     Ok est)
  | Raise e => (m, Raise e)
  end.

#[global] Instance eye_model : Detector.EyeModel :=
  {| Detector.Model := Tier;
     Detector.add_observation := tier_add;
     Detector.n_observations := tier_count;
     Detector.estimate_sphere_center := tier_estimate;
     Detector.sphere_center := tier_center;
     Detector.corrected_sphere_center := tier_corrected;
     Detector.projected_sphere_center := tier_projected;
     Detector.mean_observation_circularity := tier_circularity;
     Detector.predict_pupil_circle := fun m _ => tier_prediction m |}.

(** A filter that holds the last measurement it was corrected with. *)
Fixpoint held_measurement (history : Detector.KalmanFilter) : Q * Q * Q :=
  match history with
  | [] => (0, 0, 0)
  | Detector.correct phi theta r :: _ => (phi, theta, r)
  | Detector.predict _ :: rest => held_measurement rest
  end.

#[global] Instance kalman : Detector.Kalman :=
  {| Detector.predict_value := fun history _ => held_measurement history |}.

(** A search whose frame is the list of its edge points, and which settles
    on the best guess with every edge it was given. *)
#[global] Instance search : Detector.Search :=
  {| Detector.Frame := list Vec;
     Detector.Edge := Vec;
     Detector.Roi := unit;
     Detector.get_edges := fun frame _ _ _ _ _ _ _ =>
       (frame, frame, frame, frame, tt);
     Detector.search_on_sphere := fun edges normal radius _ _ _ _ =>
       (normal, radius, edges, edges) |}.

(** *** Example data *)

(** A [TwoSphereModel] with the default settings of its constructor and the
    initial sphere center. *)
Definition model : TwoSphere.TwoSphereModel :=
  TwoSphere.make (TwoSphere.make_settings 283 (192, 192) 10000)
                 [0; 0; 35] [0; 0; 35].

(** A pupil datum: an ellipse at pixel (100, 50) with axes 10 and 20 at 30
    degrees. *)
Definition datum : PupilDatum.t :=
  PupilDatum.make (PupilDatum.make_ellipse (100, 50) (10, 20) 30) (99 # 100) 1.

(** An unprojected circle of radius 2 on the optical axis, at depth 20, and
    its ambiguous twin. *)
Definition circle_a : Circle.t := Circle.make [0; 0; 20] [0; 3 # 5; -(4 # 5)] 2.
Definition circle_b : Circle.t := Circle.make [0; 0; 20] [0; -(3 # 5); -(4 # 5)] 2.

(** A tier at the initial sphere center holding [count] observations, with
    the threshold 0.8. *)
Definition tier (count : Z) (next_solve : result Detector.SphereCenterEstimates)
           (prediction : Circle.t) : Tier :=
  make_tier (8 # 10) [0; 0; 35] [0; 0; 35] [0; 0] count (1 # 2)
            next_solve prediction.

(** A detector with the default settings on a 192x192 camera, whose three
    tiers are given. *)
Definition detector (short_term long_term ultra_long_term : Tier)
  : Detector.Detector3D :=
  Detector.make (Detector.make_camera 283 (192, 192))
                Detector.default_settings
                short_term long_term ultra_long_term
                (Schedule.init 1 5) (Schedule.init 10 5)
                [] [].

(** Modelled from the spec: the auxiliary matrix of a line through [o] with
    unit direction [v], [I - v v^T | (I - v v^T) o], whose sums are the
    normal equations of the least-squares intersection of lines. *)
Definition aux_of_line (n : nat) (line : Line.t) : Mat :=
  let v := Line.direction line in
  let projector := msub (identity n) (map (fun a => map (fun b => a * b) v) v) in
  mred (map (fun row => row ++ [dot row (Line.origin line)]) projector).

(** Modelled from the spec: the observation built from an unprojected pair
    at a timestamp, for the focal length 283.  The 2D gaze line is the
    projection of the line through the first circle's center along its
    normal. *)
Definition observe (circle_3d_pair : Circle.t * Circle.t) (timestamp : Q)
  : TwoSphere.Observation :=
  let c0 := fst circle_3d_pair in
  let c1 := snd circle_3d_pair in
  let projected :=
      project_line_into_image_plane
        (Line.make (Circle.center c0) (Circle.normal c0)) 283 in
  let gaze_2d :=
      Line.make (Line.origin projected) (normalize (Line.direction projected)) in
  TwoSphere.make_observation
    circle_3d_pair timestamp
    (aux_of_line 2 gaze_2d)
    (aux_of_line 3 (Line.make (Circle.center c0) (Circle.normal c0)),
     aux_of_line 3 (Line.make (Circle.center c1) (Circle.normal c1)))
    gaze_2d.

(** The candidate circle of radius 1 whose Dierkes line runs through the
    eyeball center [eye] along [normal], ten units in front of it, and the
    pair it forms with its twin of mirrored normal. *)
Definition circle_towards (eye normal : Vec) : Circle.t :=
  Circle.make (vadd eye (vscale 10 normal)) normal 1.

Definition pair_towards (eye normal : Vec) : Circle.t * Circle.t :=
  (circle_towards eye normal,
   Circle.make (Circle.center (circle_towards eye normal))
               [- nth 0 normal 0; - nth 1 normal 0; nth 2 normal 0] 1).

(** Four gaze directions: right, up, left, down, all towards the camera. *)
Definition right : Vec := [3 # 5; 0; -(4 # 5)].
Definition up : Vec := [0; 3 # 5; -(4 # 5)].
Definition left : Vec := [-(3 # 5); 0; -(4 # 5)].
Definition down : Vec := [0; -(3 # 5); -(4 # 5)].

(** An eye at depth 35, and the same eye after the camera slipped to
    depth 45. *)
Definition eye_before : Vec := [0; 0; 35].
Definition eye_after : Vec := [0; 0; 45].

(** The observations of a steady eye at the times 1 to 6. *)
Definition steady_observations : list TwoSphere.Observation :=
  [ observe (pair_towards eye_before right) 1;
    observe (pair_towards eye_before up) 2;
    observe (pair_towards eye_before left) 3;
    observe (pair_towards eye_before down) 4;
    observe (pair_towards eye_before right) 5;
    observe (pair_towards eye_before up) 6 ].

(** The observations of an eye whose camera slips between the times 3
    and 4. *)
Definition slipping_observations : list TwoSphere.Observation :=
  [ observe (pair_towards eye_before right) 1;
    observe (pair_towards eye_before up) 2;
    observe (pair_towards eye_before left) 3;
    observe (pair_towards eye_after down) 4;
    observe (pair_towards eye_after right) 5;
    observe (pair_towards eye_after up) 6 ].

(** A detector whose three tiers hold one observation and predict the first
    of the two circles above, and the observation it extracts from the
    datum. *)
Definition watching : Detector.Detector3D :=
  detector (tier 1 (Raise LinAlgError) circle_a)
           (tier 1 (Raise LinAlgError) circle_a)
           (tier 1 (Raise LinAlgError) circle_a).

Definition observation : Detector.Observation :=
  Detector._extract_observation watching datum.

(** A best guess of radius 2 that faces the camera, and a frame with three
    edge points. *)
Definition guess : Circle.t := Circle.make [0; 0; 25] [0; 0; -(1)] 2.

Definition frame : Detector.Frame := [[1; 1]; [2; 2]; [3; 3]].

End Example.

(** ** Vocabulary of the statements

    Notions that the theorems of part II speak of and the source leaves
    implicit. *)

(** The circle that [predict_pupil_circle] works from. *)
Definition disambiguated {G : Geometry} (self : TwoSphere.TwoSphereModel)
           (input_ : TwoSphere.predict_input) : Circle.t :=
  match input_ with
  | TwoSphere.from_given_circle_3d_pair circle_3d_pair =>
    TwoSphere._disambiguate_circle_3d_pair self circle_3d_pair
  | TwoSphere.from_pupil_datum pupil_datum =>
    TwoSphere._extract_unproject_disambiguate self pupil_datum
  end.



(** *** One frame of the orchestrator *)

Section PredictionVocabulary.

Import Detector.

Context {L : Np.Lib} {G : Geometry} {E : EyeModel} {K : Kalman} {S : Search}.

(** The fallback circle built from the filter's prediction, lines 359-367. *)
Definition kalman_fallback (d : Detector3D) (timestamp : Q) : Circle.t :=
  let '(phi, theta, pupil_radius_kalman) :=
      predict_value (kalman_filter d) timestamp in
  Circle.make
    (Np.vadd (sphere_center (short_term_model d))
             (Np.vscale _EYE_RADIUS_DEFAULT (sph2cart phi theta)))
    (sph2cart phi theta) pupil_radius_kalman.

(** The filter after the calls [cs] (latest first) were made on it. *)
Definition after_calls (d : Detector3D) (cs : list KalmanCall) : Detector3D :=
  set_kalman_filter d (cs ++ kalman_filter d).

(** The circle and the observation that [_predict_pupil_circle] settles on,
    before the filter is corrected. *)
Definition settled (d : Detector3D) (observation : Observation) (frame : Frame)
  : Circle.t * Observation :=
  if Cmp.gtb (confidence observation) (threshold_swirski (_settings d)) then
    (Circle.make
       (Circle.center (predict_pupil_circle (long_term_model d) observation))
       (Circle.normal (predict_pupil_circle (short_term_model d) observation))
       (Circle.radius (predict_pupil_circle (long_term_model d) observation)),
     observation)
  else
    let found :=
        _predict_from_3d_search
          d frame (kalman_fallback d (timestamp observation)) false in
    (circle found, set_confidence observation (search_confidence found)).

(** The calls that one frame makes on the filter, the latest first. *)
Definition filter_calls (d : Detector3D) (observation : Observation)
           (frame : Frame) : list KalmanCall :=
  let '(pupil_circle, observation') := settled d observation frame in
  (if Cmp.gtb (confidence observation') (threshold_kalman (_settings d))
      && negb (Circle_is_null pupil_circle)
   then let '(phi, theta, r) := spherical_representation pupil_circle in
        [correct phi theta r]
   else [])
  ++ [predict (timestamp observation)].

End PredictionVocabulary.

(** *** A failed update cycle *)

Section UpdateVocabulary.

Import Detector.

Context {L : Np.Lib} {G : Geometry} {E : EyeModel} {K : Kalman} {S : Search}.

(** The two estimates of a tier that the claim is about. *)
Definition centers (m : Model) : Np.Vec * Np.Vec :=
  (sphere_center m, corrected_sphere_center m).

(** The refit of the ultra-long-term tier in the cycle of [observation]:
    whether its schedule makes it due, and what the solve gives. *)
Definition ult_due (d : Detector3D) (observation : Observation) : bool :=
  fst (Schedule.is_update_due (_ult_long_term_schedule d) (timestamp observation)).

Definition ult_refit (d : Detector3D) (observation : Observation)
  : Model * result SphereCenterEstimates :=
  estimate_sphere_center
    (add_observation (ultra_long_term_model d) observation) None None 0.

(** The ultra-long-term tier when the long-term refit starts. *)
Definition ult_then (d : Detector3D) (observation : Observation) : Model :=
  if ult_due d observation then fst (ult_refit d observation)
  else add_observation (ultra_long_term_model d) observation.

Definition lt_due (d : Detector3D) (observation : Observation) : bool :=
  fst (Schedule.is_update_due (_long_term_schedule d) (timestamp observation)).

Definition lt_refit (d : Detector3D) (observation : Observation)
  : Model * result SphereCenterEstimates :=
  estimate_sphere_center
    (add_observation (long_term_model d) observation)
    None (Some (sphere_center (ult_then d observation))) (1 # 10).

(** A refit completed: it was due and its solve returned. *)
Definition ult_completed (d : Detector3D) (observation : Observation) : bool :=
  ult_due d observation && negb (raised (snd (ult_refit d observation))).

(** The long-term refit is reached when the ultra-long-term one did not
    raise. *)
Definition lt_completed (d : Detector3D) (observation : Observation) : bool :=
  negb (ult_due d observation && raised (snd (ult_refit d observation)))
  && lt_due d observation && negb (raised (snd (lt_refit d observation))).

(** What the interface of a tier promises about its two centers: adding an
    observation touches the storage only, and a solve that raises has not
    assigned a new estimate. *)
Definition centers_contract : Prop :=
  (forall (m : Model) (o : Observation),
      centers (add_observation m o) = centers m)
  /\ (forall (m m' : Model) (from_2d prior_3d : option Np.Vec)
             (prior_strength : Q) (e : exn),
         estimate_sphere_center m from_2d prior_3d prior_strength = (m', Raise e) ->
         centers m' = centers m).

End UpdateVocabulary.

(** ** Further vocabulary: histories of a schedule *)

Module ScheduleOps.

Import Schedule.

(** What can be done to a schedule. *)
Inductive op : Type :=
| call (current_time : Q)   (* is_update_due(current_time) *)
| do_pause                   (* pause() *)
| do_resume.                 (* resume() *)

Definition apply (self : _ModelUpdateSchedule) (o : op) : _ModelUpdateSchedule :=
  match o with
  | call current_time => snd (is_update_due self current_time)
  | do_pause => pause self
  | do_resume => resume self
  end.

(** The schedule after a sequence of operations. *)
Definition run (self : _ModelUpdateSchedule) (ops : list op)
  : _ModelUpdateSchedule :=
  fold_left apply ops self.

(** The times of the calls that returned true outside the warmup window
    opened at [t0], in order. *)
Fixpoint steady_trues (warmup_duration t0 : Q) (times : list Q)
         (dues : list bool) : list Q :=
  match times, dues with
  | t :: times', due :: dues' =>
    if due && negb (in_warmup warmup_duration t0 t)
    then t :: steady_trues warmup_duration t0 times' dues'
    else steady_trues warmup_duration t0 times' dues'
  | _, _ => []
  end.

(** Each time of the list lies more than [interval] after the one before
    it, the first one after [previous] when there is one. *)
Fixpoint spaced (interval : Q) (previous : option Q) (times : list Q) : Prop :=
  match times with
  | [] => True
  | t :: rest =>
    match previous with
    | Some l => interval < t - l
    | None => True
    end /\ spaced interval (Some t) rest
  end.

End ScheduleOps.

(** ** Further vocabulary: observation sequences *)

(** Timestamps in the order of acquisition. *)
Fixpoint nondecreasing (times : list Q) : Prop :=
  match times with
  | x :: ((y :: _) as rest) => x <= y /\ nondecreasing rest
  | _ => True
  end.

(** The observations that a call of [deep_sphere_estimate] fitted, given
    the cutoff it returned. *)
Definition fitted (cutoff : option Q) (observations : list TwoSphere.Observation)
  : list TwoSphere.Observation :=
  match cutoff with
  | Some c => TwoSphere.keep_from c observations
  | None => observations
  end.

(** ** [TwoSphereModel]: construction, storage, reset (two_sphere_model.py) *)

Module Legacy.

Import Np.

(** A value of the [debug_info] dict: a float or a list. *)
Inductive DebugValue : Type :=
| debug_float (x : Q)
| debug_list (l : list Q).

(** A dict with string keys, as its items in insertion order. *)
Definition Dict (V : Type) : Type := list (String.string * V).

(** [dict[key]]; [None] stands for [KeyError]. *)
Fixpoint lookup {V : Type} (d : Dict V) (key : String.string) : option V :=
  match d with
  | [] => None
  | (k, v) :: rest => if String.eqb k key then Some v else lookup rest key
  end.

(** [refraction.Refractionizer] and [observation] (sources not
    available). *)
Class Collaborators : Type := {
  (** [Refractionizer.correct_sphere_center(rows)]: one corrected center per
      row. *)
  correct_sphere_center : list Vec -> list Vec;
  (** [Refractionizer.correct_pupil_circle(rows)]. *)
  correct_pupil_circle : list Vec -> list Vec;
  (** [Observation(ellipse, circle_3d_pair, timestamp, focal_length)]. *)
  Observation_init :
    Ellipse.t -> Circle.t * Circle.t -> Q -> Q -> TwoSphere.Observation;
  (** [ObservationStorage(maxlen=...)] and its [add_observation]. *)
  ObservationStorage : Type;
  ObservationStorage_init : Z -> ObservationStorage;
  storage_add_observation :
    ObservationStorage -> TwoSphere.Observation -> ObservationStorage
}.

Section WithCollaborators.

Context {G : Geometry} {L : Lib} {C : Collaborators}.

(** The whole object: the fields embedded in [TwoSphere.TwoSphereModel],
    the storage and the debug dict. *)
Record State : Type := make {
  model : TwoSphere.TwoSphereModel;
  observation_storage : ObservationStorage;
  debug_info : Dict DebugValue
}.

(** [correct_sphere_center(np.asarray([[*sphere_center]]))[0]]. *)
Definition corrected (sphere_center : Vec) : Vec :=
  nth 0 (correct_sphere_center [sphere_center]) [].

(** The default of the [settings] argument of [__init__]. *)
Definition default_settings : TwoSphere.Settings :=
  TwoSphere.make_settings 283 (192, 192) 10000.

(** [__init__(settings)], lines 34-54. *)
Definition init (settings : TwoSphere.Settings) : State :=
  let sphere_center := [0; 0; 35] in
  make (TwoSphere.make settings sphere_center (corrected sphere_center))
       (ObservationStorage_init (TwoSphere.maxlen settings))
       [ ("cost"%string, debug_float (-(1)));
         ("residuals"%string, debug_list []);
         ("angles"%string, debug_list []);
         ("Dierkes_lines"%string, debug_list []) ].


(** [set_sphere_center(new_sphere_center)], lines 84-88. *)
Definition set_sphere_center (self : State) (new_sphere_center : Vec) : State :=
  make (TwoSphere.make (TwoSphere.settings (model self))
                       new_sphere_center (corrected new_sphere_center))
       (observation_storage self) (debug_info self).

(** [apply_refraction_correction(pupil_circle)], lines 241-262. *)
Definition apply_refraction_correction (self : State) (pupil_circle : Circle.t)
  : Circle.t :=
  let input_features :=
      [ TwoSphere.sphere_center (model self)
        ++ Circle.normal pupil_circle ++ [Circle.radius pupil_circle] ] in
  let refraction_corrected_params :=
      nth 0 (correct_pupil_circle input_features) [] in
  let refraction_corrected_gaze_vector :=
      normalize (firstn 3 refraction_corrected_params) in
  let refraction_corrected_radius := last refraction_corrected_params 0 in
  let refraction_corrected_pupil_center :=
      vadd (TwoSphere.corrected_sphere_center (model self))
           (vscale _EYE_RADIUS_DEFAULT refraction_corrected_gaze_vector) in
  Circle.make refraction_corrected_pupil_center
              refraction_corrected_gaze_vector
              refraction_corrected_radius.

(** [reset()], lines 265-273.  The corrected sphere center is not
    assigned. *)
Definition reset (self : State) : State :=
  make (TwoSphere.make (TwoSphere.settings (model self)) [0; 0; 35]
                       (TwoSphere.corrected_sphere_center (model self)))
       (ObservationStorage_init (TwoSphere.maxlen (TwoSphere.settings (model self))))
       [ ("cost"%string, debug_float (-(1)));
         ("residuals"%string, debug_list []);
         ("angles"%string, debug_list []);
         ("dierkes_lines"%string, debug_list []) ].

(** The circle that stands for "no circle" in this module. *)
Definition no_circle : Circle.t := Circle.make [0; 0; 0] [0; 0; -(1)] 0.

End WithCollaborators.

End Legacy.

(** ** [Detector3D]: construction, the frame pipeline, the result record
    (detector_3d.py) *)

Module Pipeline.

Import Np Detector.

(** [DetectorMode]: its members in definition order; the values are the
    model classes [TwoSphereModel] and [TwoSphereModelAsync]. *)
Inductive DetectorMode : Type :=
| blocking
| asynchronous.

Definition mode_name (mode : DetectorMode) : String.string :=
  match mode with
  | blocking => "blocking"%string
  | asynchronous => "asynchronous"%string
  end.

Definition mode_eqb (a b : DetectorMode) : bool :=
  match a, b with
  | blocking, blocking | asynchronous, asynchronous => true
  | _, _ => false
  end.

(** [DetectorMode.from_name(mode_name)], lines 53-55: the dict of the
    members by name, indexed; [None] stands for [KeyError]. *)
Definition from_name (name : String.string) : option DetectorMode :=
  Legacy.lookup (map (fun mode => (mode_name mode, mode)) [blocking; asynchronous])
                name.

Module EllipseDict.
Record t : Type := make {
  center : Q * Q;
  axes : Q * Q;
  angle : Q
}.
End EllipseDict.

Module CircleDict.
Record t : Type := make {
  center : Q * Q * Q;
  normal : Q * Q * Q;
  radius : Q
}.
End CircleDict.

(** [ellipse2dict(ellipse)], lines 58-69. *)
Definition ellipse2dict (ellipse : Ellipse.t) : EllipseDict.t :=
  EllipseDict.make
    (nth 0 (Ellipse.center ellipse) 0, nth 1 (Ellipse.center ellipse) 0)
    (Ellipse.minor_radius ellipse, Ellipse.major_radius ellipse)
    (Ellipse.angle ellipse).

(** [circle2dict(circle)], lines 72-85. *)
Definition circle2dict (circle : Circle.t) : CircleDict.t :=
  CircleDict.make
    (nth 0 (Circle.center circle) 0, nth 1 (Circle.center circle) 0,
     nth 2 (Circle.center circle) 0)
    (nth 0 (Circle.normal circle) 0, nth 1 (Circle.normal circle) 0,
     nth 2 (Circle.normal circle) 0)
    (Circle.radius circle).

(** The storage class and keyword arguments that a model is built with,
    lines 181-214. *)
Inductive StorageSpec : Type :=
| BufferedObservationStorage (confidence_threshold : Q) (buffer_length : Z)
| BinBufferedObservationStorage
    (camera : CameraModel) (confidence_threshold : Q)
    (n_bins_horizontal bin_buffer_length forget_min_observations : Z)
    (forget_min_time : Q).

(** What the rest of the orchestrator asks of its collaborators (sources
    not available).  A float that may be NaN is an [option Q], [None]
    standing for NaN. *)
Class Reporting {E : EyeModel} : Type := {
  (** The model class of a mode, called with [camera], [storage_cls] and
      [storage_kwargs]. *)
  new_model : DetectorMode -> CameraModel -> StorageSpec -> Model;
  (** [model.apply_refraction_correction(pupil_circle)]. *)
  apply_refraction_correction : Model -> Circle.t -> Circle.t;
  (** [model.storage.get_bin_counts()]; [None] stands for the
      [AttributeError] of a storage without bins. *)
  get_bin_counts : Model -> option Mat;
  (** [project_sphere_into_image_plane(Sphere(center, radius), transform,
      focal_length, width, height)]. *)
  project_sphere_into_image_plane :
    Vec -> Q -> bool -> Q -> Q -> Q -> Ellipse.t;
  (** [cart2sph(vector)]: (phi, theta). *)
  cart2sph : Vec -> option Q * option Q
}.

(** A float that need not be finite: what the division of an array by a
    number leaves in it. *)
Inductive Float : Type :=
| finite (x : Q)
| nan
| inf
| neg_inf.

(** [x / y] on numpy floats: a zero divisor gives a warning and NaN or an
    infinity, not an exception. *)
Definition true_divide (x y : Q) : Float :=
  if Qeq_bool y 0 then
    if Qeq_bool x 0 then nan
    else if Cmp.gtb x 0 then inf else neg_inf
  else finite (x / y).

Module DebugInfo.
Record t : Type := make {
  projected_short_term : EllipseDict.t;
  projected_long_term : EllipseDict.t;
  projected_ultra_long_term : EllipseDict.t;
  bin_data : list (list Float);
  Dierkes_lines : list Line.t
}.
End DebugInfo.

(** The result dict of a frame. *)
Module Result.
Record t : Type := make {
  timestamp : Q;
  sphere_center : Q * Q * Q;
  sphere_radius : Q;
  projected_sphere : EllipseDict.t;
  circle_3d : CircleDict.t;
  diameter_3d : Q;
  ellipse : EllipseDict.t;
  diameter : Q;
  confidence : Q;
  confidence_2d : Q;
  model_confidence : Q;
  theta : Q;
  phi : Q;
  debug_info : option DebugInfo.t
}.

Definition set_debug_info (r : t) (info : DebugInfo.t) : t :=
  make (timestamp r) (sphere_center r) (sphere_radius r) (projected_sphere r)
       (circle_3d r) (diameter_3d r) (ellipse r) (diameter r) (confidence r)
       (confidence_2d r) (model_confidence r) (theta r) (phi r) (Some info).
End Result.

(** [np.max] of a two-dimensional array; [ValueError] on an array without
    elements. *)
Definition np_max (m : Mat) : result Q :=
  match concat m with
  | [] => Raise ValueError
  | x :: rest => Ok (fold_left Qmax rest x)
  end.

Section WithCollaborators.

Context {L : Lib} {G : Geometry} {E : EyeModel} {K : Kalman} {S : Search}
        {R : Reporting}.

(** The models, schedules and filter that [reset] installs, lines 156-214:
    the short-term model is always of the blocking class. *)
Definition fresh (camera : CameraModel) (settings : Settings)
           (mode : DetectorMode) (log : list LogRecord) : Detector3D :=
  Detector.make
    camera settings
    (new_model blocking camera
               (BufferedObservationStorage (threshold_short_term settings) 10))
    (new_model mode camera
               (BinBufferedObservationStorage
                  camera (threshold_long_term settings) 10
                  (long_term_buffer_size settings)
                  (long_term_forget_observations settings)
                  (long_term_forget_time settings)))
    (new_model mode camera
               (BinBufferedObservationStorage
                  camera (threshold_long_term settings) 10
                  (long_term_buffer_size settings)
                  (2 * long_term_forget_observations settings)
                  60))
    (Schedule.init (model_update_interval_long_term settings)
                   (model_warmup_duration settings))
    (Schedule.init (model_update_interval_ult_long_term settings)
                   (model_warmup_duration settings))
    [] log.

(** The detector object: the state embedded in [Detector3D], its mode, and
    the models on which [cleanup()] has been called. *)
Record Object : Type := make_object {
  detector : Detector3D;
  _long_term_mode : DetectorMode;
  cleaned_up : list Model
}.

(** [__init__(camera, ..., long_term_mode, ...)], lines 103-134: there are
    no models to clean up yet. *)
Definition init (camera : CameraModel) (settings : Settings)
           (long_term_mode : DetectorMode) : Object :=
  make_object (fresh camera settings long_term_mode []) long_term_mode [].

(** [reset()], lines 156-171. *)
Definition reset (self : Object) : Object :=
  let d := detector self in
  make_object
    (fresh (camera d) (_settings d) (_long_term_mode self) (logger d))
    (_long_term_mode self)
    (cleaned_up self
     ++ [short_term_model d; long_term_model d; ultra_long_term_model d]).

(** The setter of [long_term_mode], lines 144-149. *)
Definition set_long_term_mode (self : Object) (mode : DetectorMode) : Object :=
  let needs_reset := negb (mode_eqb mode (_long_term_mode self)) in
  let self' := make_object (detector self) mode (cleaned_up self) in
  if needs_reset then reset self' else self'.

(** [reset_camera(camera)], lines 151-154. *)
Definition reset_camera (self : Object) (new_camera : CameraModel) : Object :=
  let d := detector self in
  reset (make_object
           (Detector.make new_camera (_settings d) (short_term_model d)
                          (long_term_model d) (ultra_long_term_model d)
                          (_long_term_schedule d) (_ult_long_term_schedule d)
                          (kalman_filter d) (logger d))
           (_long_term_mode self) (cleaned_up self)).

(** [project_sphere_into_image_plane(Sphere(center, _EYE_RADIUS_DEFAULT),
    transform=True, ...)] as a dict, for the camera of the detector. *)
Definition projected_sphere_dict (d : Detector3D) (center : Vec) : EllipseDict.t :=
  ellipse2dict
    (project_sphere_into_image_plane
       center _EYE_RADIUS_DEFAULT true (focal_length (camera d))
       (fst (resolution (camera d))) (snd (resolution (camera d)))).

(** [_prepare_result(observation, prediction_uncorrected,
    prediction_corrected)], lines 474-546. *)
Definition _prepare_result (d : Detector3D) (observation : Observation)
           (prediction_uncorrected prediction_corrected : Prediction)
  : Result.t :=
  let center := prediction_sphere_center prediction_corrected in
  let pupil_circle_long_term :=
      predict_pupil_circle (long_term_model d) observation in
  let projected_pupil_circle :=
      match project_circle_into_image_plane
              (pupil_circle prediction_uncorrected)
              (focal_length (camera d)) true
              (fst (resolution (camera d))) (snd (resolution (camera d))) with
      | Some ellipse => ellipse
      | None => Ellipse.make [0; 0] 0 0 0
      end in
  let '(theta, phi) :=
      match cart2sph (Circle.normal (pupil_circle prediction_corrected)) with
      | (Some phi, Some theta) => (theta, phi)
      | _ => (0, 0)
      end in
  Result.make
    (timestamp observation)
    (nth 0 center 0, nth 1 center 0, nth 2 center 0)
    _EYE_RADIUS_DEFAULT
    (projected_sphere_dict d (prediction_sphere_center prediction_uncorrected))
    (circle2dict (pupil_circle prediction_corrected))
    (Circle.radius pupil_circle_long_term * 2)
    (ellipse2dict projected_pupil_circle)
    (Ellipse.major_radius projected_pupil_circle)
    (confidence observation)
    (confidence_2d observation)
    1
    theta phi
    None.

(** The bin occupancy of lines 578-586: scaled by its maximum when that is
    not negative, and flipped along the first axis. *)
Definition bin_data (d : Detector3D) : result (list (list Float)) :=
  match get_bin_counts (long_term_model d) with
  | None => Ok []
  | Some counts =>
    max_bin_level <- np_max counts ;;
    let scaled :=
        if Cmp.geb max_bin_level 0
        then map (map (fun x => true_divide x max_bin_level)) counts
        else map (map finite) counts in
    Ok (rev scaled)
  end.

(** [_collect_debug_info()], lines 548-594. *)
Definition _collect_debug_info (d : Detector3D) : result DebugInfo.t :=
  let projected_short_term :=
      projected_sphere_dict d (sphere_center (short_term_model d)) in
  let projected_long_term :=
      projected_sphere_dict d (sphere_center (long_term_model d)) in
  let projected_ultra_long_term :=
      projected_sphere_dict d (sphere_center (ultra_long_term_model d)) in
  bins <- bin_data d ;;
  Ok (DebugInfo.make projected_short_term projected_long_term
                     projected_ultra_long_term bins []).

(** [update_and_detect(pupil_datum, frame, apply_refraction_correction,
    debug)], lines 224-258: the detector after the frame, and the result or
    the exception. *)
Definition update_and_detect (pupil_datum : PupilDatum.t) (frame : Frame)
           (with_refraction_correction debug : bool)
  : Detector3D -> Detector3D * result Result.t :=
  fun d =>
    let observation := _extract_observation d pupil_datum in
    match update_models observation d with
    | (d1, Raise e) => (d1, Raise e)
    | (d1, Ok _) =>
      let sphere_center_uncorrected := sphere_center (long_term_model d1) in
      match _predict_pupil_circle observation frame d1 with
      | (d2, Raise e) => (d2, Raise e)
      | (d2, Ok (pupil_circle, observation')) =>
        let prediction_uncorrected :=
            make_prediction sphere_center_uncorrected pupil_circle in
        let prediction_corrected :=
            if with_refraction_correction
            then make_prediction
                   (corrected_sphere_center (long_term_model d2))
                   (apply_refraction_correction (long_term_model d2) pupil_circle)
            else prediction_uncorrected in
        let result :=
            _prepare_result d2 observation'
                            prediction_uncorrected prediction_corrected in
        if debug then
          (d2, fmap (Result.set_debug_info result) (_collect_debug_info d2))
        else (d2, Ok result)
      end
    end.

End WithCollaborators.

End Pipeline.

(** ** Concrete collaborators for the further examples *)

Module ExampleMore.

Import Np.

(** A sliding window of observations: at most [maxlen] of them, the oldest
    dropped first. *)
Definition window_add (storage : Z * list TwoSphere.Observation)
           (observation : TwoSphere.Observation)
  : Z * list TwoSphere.Observation :=
  let stored := snd storage ++ [observation] in
  (fst storage,
   if (Z.of_nat (length stored) <=? fst storage)%Z then stored else tl stored).

(** A stand-in for the pretrained refraction regressor: it pulls a sphere
    center towards the camera by a tenth and leaves a pupil circle as it
    is. *)
#[global] Instance legacy : Legacy.Collaborators :=
  @Legacy.Build_Collaborators
    (map (vscale (9 # 10)))
    (fun rows => rows)
    (fun ellipse circle_3d_pair timestamp focal_length =>
       Example.observe circle_3d_pair timestamp)
    (Z * list TwoSphere.Observation)%type
    (fun maxlen => (maxlen, []))
    window_add.

(** A model tier as the orchestrator builds it: empty, at the initial
    center, with the confidence threshold of its storage; its next solve is
    scripted to fail. *)
Definition built (mode : Pipeline.DetectorMode) (camera : Detector.CameraModel)
           (spec : Pipeline.StorageSpec) : Example.Tier :=
  let threshold :=
      match spec with
      | Pipeline.BufferedObservationStorage confidence_threshold _ =>
        confidence_threshold
      | Pipeline.BinBufferedObservationStorage _ confidence_threshold _ _ _ _ =>
        confidence_threshold
      end in
  Example.make_tier threshold [0; 0; 35] [0; 0; 35] [0; 0] 0 (1 # 2)
                    (Raise LinAlgError) Legacy.no_circle.

(** A stand-in for the projection of the eyeball: the circle of the
    projected radius around the projected center. *)
Definition project_sphere (center : Vec) (radius : Q) (transform : bool)
           (focal_length width height : Q) : Ellipse.t :=
  let z := nth 2 center 0 in
  let p := Example.project_point_into_image_plane center focal_length in
  let p := if transform then vadd p [width / 2; height / 2] else p in
  let r := focal_length * radius / z in
  Ellipse.make p r r 0.

(** A stand-in for the angles of a vector, as in
    [Example.spherical_representation]; the zero vector has none. *)
Definition cart2sph (v : Vec) : option Q * option Q :=
  if forallb (fun x => Qeq_bool x 0) v then (None, None)
  else (Some (nth 0 v 0), Some (nth 1 v 0)).

(** The bins of a scripted tier: its count in the first bin of a 2x2
    grid. *)
#[global] Instance reporting : @Pipeline.Reporting Example.eye_model :=
  @Pipeline.Build_Reporting
    Example.eye_model
    built
    (fun m pupil_circle => pupil_circle)
    (fun m => Some [[inject_Z (Example.tier_count m); 1]; [2; 0]])
    project_sphere
    cart2sph.

(** The same collaborators over a long-term storage whose bins are all
    empty, as after a reset. *)
Definition empty_bins : @Pipeline.Reporting Example.eye_model :=
  @Pipeline.Build_Reporting
    Example.eye_model
    built
    (fun m pupil_circle => pupil_circle)
    (fun m => Some [[0; 0]; [0; 0]])
    project_sphere
    cart2sph.

(** A legacy model object with the default settings. *)
Definition state : Legacy.State := Legacy.init Legacy.default_settings.

End ExampleMore.

(** ** Further vocabulary: the steps of an update cycle *)

Section CycleVocabulary.

Import Detector.

Context {L : Np.Lib} {G : Geometry} {E : EyeModel} {K : Kalman} {S : Search}.

(** The ultra-long-term solve of the cycle raised. *)
Definition ult_failed (d : Detector3D) (observation : Observation) : bool :=
  ult_due d observation && raised (snd (ult_refit d observation)).

(** The long-term tier when the short-term refit starts. *)
Definition lt_then (d : Detector3D) (observation : Observation) : Model :=
  if lt_due d observation then fst (lt_refit d observation)
  else add_observation (long_term_model d) observation.

(** The estimates of the long-term step: those of its refit when it is due,
    and the tier's current ones otherwise. *)
Definition lt_estimates (d : Detector3D) (observation : Observation)
  : result SphereCenterEstimates :=
  if lt_due d observation then snd (lt_refit d observation)
  else Ok (make_estimates
             (projected_sphere_center
                (add_observation (long_term_model d) observation))
             (sphere_center (add_observation (long_term_model d) observation))).

(** The refit of the short-term tier from given long-term estimates. *)
Definition st_refit (d : Detector3D) (observation : Observation)
           (estimates : SphereCenterEstimates)
  : Model * result SphereCenterEstimates :=
  estimate_sphere_center
    (add_observation (short_term_model d) observation)
    (Some (projected estimates)) (Some (three_dim estimates))
    (sigmoid (mean_observation_circularity
                (add_observation (short_term_model d) observation))).

End CycleVocabulary.

(** ** Further vocabulary: one frame through [update_and_detect] *)

Section FrameVocabulary.

Import Detector Pipeline.

Context {L : Np.Lib} {G : Geometry} {E : EyeModel} {K : Kalman} {S : Search}
        {R : Reporting}.

(** The detector after the model update of the frame. *)
Definition updated (d : Detector3D) (pupil_datum : PupilDatum.t) : Detector3D :=
  fst (update_models (_extract_observation d pupil_datum) d).

(** The pupil circle that the frame settles on. *)
Definition frame_circle (d : Detector3D) (pupil_datum : PupilDatum.t)
           (frame : Frame) : Circle.t :=
  fst (settled (updated d pupil_datum) (_extract_observation d pupil_datum)
               frame).

(** The observation after the prediction: its confidence may have been
    overwritten. *)
Definition frame_observation (d : Detector3D) (pupil_datum : PupilDatum.t)
           (frame : Frame) : Observation :=
  snd (settled (updated d pupil_datum) (_extract_observation d pupil_datum)
               frame).

(** The detector after the frame. *)
Definition after_frame (d : Detector3D) (pupil_datum : PupilDatum.t)
           (frame : Frame) : Detector3D :=
  after_calls (updated d pupil_datum)
              (filter_calls (updated d pupil_datum)
                            (_extract_observation d pupil_datum) frame).

(** The two predictions of the frame: the uncorrected one, and the one
    that [_prepare_result] takes the 3D data from. *)
Definition prediction_uncorrected (d : Detector3D) (pupil_datum : PupilDatum.t)
           (frame : Frame) : Prediction :=
  make_prediction (sphere_center (long_term_model (updated d pupil_datum)))
                  (frame_circle d pupil_datum frame).

Definition prediction_corrected (d : Detector3D) (pupil_datum : PupilDatum.t)
           (frame : Frame) (with_refraction_correction : bool) : Prediction :=
  if with_refraction_correction
  then make_prediction
         (corrected_sphere_center (long_term_model (updated d pupil_datum)))
         (apply_refraction_correction (long_term_model (updated d pupil_datum))
                                      (frame_circle d pupil_datum frame))
  else prediction_uncorrected d pupil_datum frame.

(** All entries of a two-dimensional array satisfy [P]. *)
Definition all_entries {A : Type} (P : A -> Prop) (m : list (list A)) : Prop :=
  Forall (Forall P) m.

(** A float is finite and within the unit interval. *)
Definition in_unit_interval (x : Float) : Prop :=
  match x with
  | finite q => 0 <= q <= 1
  | _ => False
  end.

End FrameVocabulary.

(** * Part II: theorems *)

Local Open Scope Q_scope.

(** ** Comparisons *)

Lemma ltb_true (x y : Q) : Cmp.ltb x y = true <-> x < y.
Proof.
  unfold Cmp.ltb. rewrite negb_true_iff. split; intro H.
  - apply Qnot_le_lt. intro Hle. apply Qle_bool_iff in Hle. congruence.
  - destruct (Qle_bool y x) eqn:E; [|reflexivity].
    apply Qle_bool_iff in E. exfalso. apply (Qlt_not_le _ _ H E).
Qed.

Lemma ltb_false (x y : Q) : Cmp.ltb x y = false <-> y <= x.
Proof. unfold Cmp.ltb. rewrite negb_false_iff. apply Qle_bool_iff. Qed.

Lemma gtb_true (x y : Q) : Cmp.gtb x y = true <-> y < x.
Proof. apply ltb_true. Qed.

Lemma gtb_false (x y : Q) : Cmp.gtb x y = false <-> x <= y.
Proof. apply ltb_false. Qed.

Lemma geb_true (x y : Q) : Cmp.geb x y = true <-> y <= x.
Proof. apply Qle_bool_iff. Qed.

Lemma geb_false (x y : Q) : Cmp.geb x y = false <-> x < y.
Proof.
  unfold Cmp.geb. split; intro H.
  - apply Qnot_le_lt. intro Hle. apply Qle_bool_iff in Hle. congruence.
  - destruct (Qle_bool y x) eqn:E; [|reflexivity].
    apply Qle_bool_iff in E. exfalso. apply (Qlt_not_le _ _ H E).
Qed.

(** ** The model update schedule *)

Section ScheduleFacts.

Import Schedule.

Lemma first_call_due (interval warmup t0 : Q) :
  is_update_due (init interval warmup) t0
  = (true, make interval warmup (Some t0) false None).
Proof. reflexivity. Qed.

Lemma paused_not_due (s : _ModelUpdateSchedule) (t : Q) :
  _paused s = true -> is_update_due s t = (false, s).
Proof. intro H. unfold is_update_due. rewrite H. reflexivity. Qed.

Lemma resume_due (s : _ModelUpdateSchedule) (t : Q) :
  fst (is_update_due (resume s) t) = true.
Proof.
  unfold is_update_due, resume; cbn.
  destruct (_warmup_start s); [|reflexivity].
  destruct (Cmp.ltb _ _); reflexivity.
Qed.

(** One call on a running schedule: it stays running, and its
    [_last_update] moves exactly when the call returned true outside the
    warmup window. *)
Lemma running_step (interval warmup t0 : Q) (acc : option Q) (t : Q) :
  let s := make interval warmup (Some t0) false acc in
  let due := fst (is_update_due s t) in
  snd (is_update_due s t)
  = make interval warmup (Some t0) false
         (if due && negb (in_warmup warmup t0 t) then Some t else acc).
Proof.
  cbn. unfold is_update_due, in_warmup; cbn.
  destruct (Cmp.ltb (t - t0) warmup); cbn; [reflexivity|].
  destruct acc as [l|]; cbn; [|reflexivity].
  destruct (Cmp.gtb (t - l) interval); reflexivity.
Qed.

(** After any sequence of calls on a running schedule, [_last_update] is the
    time of the last call that returned true outside the warmup window. *)
Lemma running_calls (interval warmup t0 : Q) (ts : list Q) :
  forall acc : option Q,
    let s := make interval warmup (Some t0) false acc in
    snd (calls s ts)
    = make interval warmup (Some t0) false
           (last_steady_true warmup t0 acc ts (fst (calls s ts))).
Proof.
  induction ts as [|t ts IH]; intro acc.
  - reflexivity.
  - cbn zeta. cbn [calls].
    destruct (is_update_due (make interval warmup (Some t0) false acc) t)
      as [due s'] eqn:E.
    assert (Hs' : s' = make interval warmup (Some t0) false
                            (if due && negb (in_warmup warmup t0 t)
                             then Some t else acc)).
    { pose proof (running_step interval warmup t0 acc t) as H.
      cbn zeta in H. rewrite E in H. exact H. }
    subst s'.
    specialize (IH (if due && negb (in_warmup warmup t0 t) then Some t else acc)).
    cbn zeta in IH.
    destruct (calls _ ts) as [dues s'']. cbn [fst snd] in *.
    cbn [last_steady_true]. exact IH.
Qed.

(** A call on a running schedule, inside and outside the warmup window. *)
Lemma running_due (interval warmup t0 : Q) (acc : option Q) (t : Q) :
  let s := make interval warmup (Some t0) false acc in
  (t - t0 < warmup -> fst (is_update_due s t) = true)
  /\ (~ t - t0 < warmup ->
      (fst (is_update_due s t) = true
       <-> match acc with
           | None => True
           | Some l => interval < t - l
           end)).
Proof.
  cbn. unfold is_update_due; cbn. split; intro H.
  - apply ltb_true in H. rewrite H. reflexivity.
  - destruct (Cmp.ltb (t - t0) warmup) eqn:E.
    + apply ltb_true in E. contradiction.
    + destruct acc as [l|]; cbn.
      * destruct (Cmp.gtb (t - l) interval) eqn:E'; cbn.
        -- apply gtb_true in E'. tauto.
        -- apply gtb_false in E'. split; [discriminate|].
           intro Hlt. exfalso. apply (Qlt_not_le _ _ Hlt E').
      * tauto.
Qed.

End ScheduleFacts.

(** C4, as the code has it.  Take a fresh schedule, a first call at [t0],
    any further calls at [ts], and then a call at [t].
    - The first call returns true.
    - If [t] is less than [warmup] after the first call, the call at [t]
      returns true.
    - Otherwise it returns true exactly when no call after the first has yet
      returned true outside the warmup window, or more than [interval] has
      elapsed since the last call that did (the calls of the warmup window do
      not start the interval).
    - A paused schedule answers false and is left untouched; [pause] resets
      neither timer.
    - The call that follows [resume] returns true. *)
Theorem C4_schedule_cadence (interval warmup t0 : Q) (ts : list Q) (t : Q) :
  let fresh := Schedule.init interval warmup in
  let dues := fst (Schedule.calls fresh (t0 :: ts)) in
  let s := snd (Schedule.calls fresh (t0 :: ts)) in
  hd false dues = true
  /\ (t - t0 < warmup -> fst (Schedule.is_update_due s t) = true)
  /\ (~ t - t0 < warmup ->
      (fst (Schedule.is_update_due s t) = true
       <-> match Schedule.last_steady_true warmup t0 None ts (tl dues) with
           | None => True
           | Some l => interval < t - l
           end))
  /\ (forall p : Schedule._ModelUpdateSchedule,
         Schedule._paused p = true ->
         Schedule.is_update_due p t = (false, p))
  /\ (forall p : Schedule._ModelUpdateSchedule,
         Schedule._warmup_start (Schedule.pause p) = Schedule._warmup_start p
         /\ Schedule._last_update (Schedule.pause p) = Schedule._last_update p)
  /\ (forall p : Schedule._ModelUpdateSchedule,
         fst (Schedule.is_update_due (Schedule.resume p) t) = true).
Proof.
  cbn zeta.
  assert (Hcalls :
            Schedule.calls (Schedule.init interval warmup) (t0 :: ts)
            = (true :: fst (Schedule.calls
                              (Schedule.make interval warmup (Some t0) false None) ts),
               snd (Schedule.calls
                      (Schedule.make interval warmup (Some t0) false None) ts))).
  { cbn [Schedule.calls]. rewrite first_call_due.
    destruct (Schedule.calls _ ts); reflexivity. }
  rewrite Hcalls. cbn [fst snd hd tl].
  rewrite (running_calls interval warmup t0 ts None). cbn zeta.
  pose proof (running_due interval warmup t0
                (Schedule.last_steady_true warmup t0 None ts
                   (fst (Schedule.calls
                           (Schedule.make interval warmup (Some t0) false None) ts)))
                t) as [Hwarm Hsteady].
  split; [reflexivity|].
  split; [exact Hwarm|].
  split; [exact Hsteady|].
  split; [intros p Hp; apply paused_not_due; exact Hp|].
  split; [intro p; split; reflexivity|].
  intro p. apply resume_due.
Qed.

Lemma C4_schedule_cadence_witness :
  ~ 7 - 0 < 5
  /\ (fst (Schedule.is_update_due
             (snd (Schedule.calls (Schedule.init 10 5) [0; 4; 6])) 7) = true
      <-> 10 < 7 - 6).
Proof.
  assert (H : ~ 7 - 0 < 5) by (intro H; vm_compute in H; discriminate H).
  split; [exact H|].
  pose proof (C4_schedule_cadence 10 5 0 [4; 6] 7) as T.
  cbn zeta in T. destruct T as [_ [_ [T _]]].
  exact (T H).
Defined.

(** C4 as stated fails: with an interval of 10 and a warmup of 5, the calls
    at 0, 4 and 6 all return true; the call at 6 lies outside the warmup
    window and only 2 have elapsed since the previous true-returning call. *)
Lemma C4_first_steady_call_ignores_interval :
  fst (Schedule.calls (Schedule.init 10 5) [0; 4; 6]) = [true; true; true]
  /\ Schedule.in_warmup 5 0 6 = false
  /\ ~ 10 < 6 - 4.
Proof.
  split; [reflexivity|]. split; [reflexivity|].
  intro H. apply Qlt_not_le in H. apply H. discriminate.
Qed.

(** ** Ellipse extraction: the two conventions *)




(** ** Disambiguation of the circle pair *)



Lemma nth_map2 {A B C : Type} (f : A -> B -> C) (l : list A) (l' : list B)
      (i : nat) (a : A) (b : B) (c : C) :
  nth_error l i = Some a -> nth_error l' i = Some b ->
  nth i (Np.map2 f l l') c = f a b.
Proof.
  revert l' i. induction l as [|x l IH]; intros [|y l'] [|i]; cbn;
    try discriminate.
  - intros H1 H2. congruence.
  - intros H1 H2. apply IH; assumption.
Qed.



(** The indices that a successful fit returns are those of the batched
    test against the projected sphere center of that fit. *)
Lemma estimate_new_model_indices {L : Np.Lib}
      (observations : list TwoSphere.Observation)
      (sphere_center : Np.Vec) (indices : list nat) :
  TwoSphere.estimate_new_model observations = Ok (sphere_center, indices) ->
  exists p : Np.Vec,
    TwoSphere.projected_center observations = Ok p
    /\ indices = TwoSphere.disambiguation_indices
                   (TwoSphere.dot_products p observations).
Proof.
  unfold TwoSphere.estimate_new_model. intro H.
  destruct (TwoSphere.projected_center observations) as [p|e]; cbn in H;
    [|discriminate].
  exists p. split; [reflexivity|].
  destruct (Np.sum_axis0 _) as [s|]; [|discriminate].
  destruct (Np.pinv _) as [q|e]; cbn in H; [|discriminate].
  injection H as _ <-. reflexivity.
Qed.



(** ** Prediction of the pupil circle by the legacy model *)

(** C2, as the code has it.  When the disambiguated circle is a valid one,
    the predicted pupil circle is centered on the point of the eyeball sphere
    nearest to the ray from the origin through the circle's center, and its
    radius is the distance from the origin to that point over the distance
    from the origin to the circle's center: the ratio itself, not the
    circle's radius times the ratio.  The two agree for a circle of radius
    1. *)
Theorem C2_predicted_radius_is_the_distance_ratio
        {G : Geometry} {L : Np.Lib}
        (self : TwoSphere.TwoSphereModel) (input_ : TwoSphere.predict_input)
        (use_unprojection : bool)
        (Hvalid : Circle_bool (disambiguated self input_) = true) :
  let circle_3d := disambiguated self input_ in
  let nearest_point_on_sphere :=
      nearest_point_on_sphere_to_line
        (TwoSphere.sphere_center self) _EYE_RADIUS_DEFAULT [0; 0; 0]
        (normalize (Circle.center circle_3d)) in
  let pupil_circle :=
      TwoSphere.predict_pupil_circle self input_ use_unprojection in
  Circle.center pupil_circle = nearest_point_on_sphere
  /\ Circle.radius pupil_circle
     = Np.norm nearest_point_on_sphere / Np.norm (Circle.center circle_3d)
  /\ (Circle.radius circle_3d == 1 ->
      Circle.radius pupil_circle
      == Circle.radius circle_3d
         * (Np.norm nearest_point_on_sphere
            / Np.norm (Circle.center circle_3d))).
Proof.
  cbn zeta. unfold TwoSphere.predict_pupil_circle.
  fold (disambiguated self input_). rewrite Hvalid.
  cbn [Circle.center Circle.radius].
  split; [reflexivity|]. split; [reflexivity|].
  intro Hunit. rewrite Hunit. symmetry. apply Qmult_1_l.
Qed.

Lemma C2_predicted_radius_is_the_distance_ratio_witness :
  let input_ :=
      TwoSphere.from_given_circle_3d_pair (Example.circle_a, Example.circle_b) in
  let circle_3d := disambiguated Example.model input_ in
  let pupil_circle := TwoSphere.predict_pupil_circle Example.model input_ false in
  Circle_bool circle_3d = true
  /\ Circle.center pupil_circle
     = nearest_point_on_sphere_to_line
         (TwoSphere.sphere_center Example.model) _EYE_RADIUS_DEFAULT [0; 0; 0]
         (normalize (Circle.center circle_3d))
  /\ Circle.radius pupil_circle
     = Np.norm (nearest_point_on_sphere_to_line
                  (TwoSphere.sphere_center Example.model) _EYE_RADIUS_DEFAULT
                  [0; 0; 0] (normalize (Circle.center circle_3d)))
       / Np.norm (Circle.center circle_3d).
Proof.
  cbn zeta. split; [vm_compute; reflexivity|].
  pose proof (C2_predicted_radius_is_the_distance_ratio
                Example.model
                (TwoSphere.from_given_circle_3d_pair
                   (Example.circle_a, Example.circle_b))
                false eq_refl) as H.
  cbn zeta in H. destruct H as [Hcenter [Hradius _]].
  split; [exact Hcenter | exact Hradius].
Defined.

(** C2 as stated fails: for a circle of radius 2 at depth 20 on the optical
    axis and the eyeball at depth 35, the nearest point of the sphere is at
    depth 35 less the eye radius, about 24.6; the predicted radius is the
    ratio 24.6 / 20, about 1.23, and not twice that. *)
Lemma C2_radius_ignores_circle_radius :
  let input_ :=
      TwoSphere.from_given_circle_3d_pair (Example.circle_a, Example.circle_b) in
  let circle_3d := disambiguated Example.model input_ in
  let pupil_circle := TwoSphere.predict_pupil_circle Example.model input_ false in
  Circle_bool circle_3d = true
  /\ Circle.radius circle_3d == 2
  /\ Circle.radius pupil_circle == 1537980947161671 # 1250000000000000
  /\ ~ Circle.radius pupil_circle
       == Circle.radius circle_3d
          * (Np.norm (Circle.center pupil_circle)
             / Np.norm (Circle.center circle_3d)).
Proof.
  cbn zeta.
  split; [vm_compute; reflexivity|].
  split; [vm_compute; reflexivity|].
  split; [vm_compute; reflexivity|].
  intro H. vm_compute in H. discriminate H.
Qed.

(** ** The change-point cut of [deep_sphere_estimate] *)







Lemma keep_from_spec (cutoff : Q) (observations : list TwoSphere.Observation)
      (obs : TwoSphere.Observation) :
  In obs (TwoSphere.keep_from cutoff observations)
  <-> In obs observations /\ cutoff <= TwoSphere.timestamp obs.
Proof.
  unfold TwoSphere.keep_from. rewrite filter_In, geb_true. reflexivity.
Qed.



(** The cut at work: after a fit on the steady eye, the residuals of the
    slipping eye are 0, 0, 0, 36, 36, 36; the cutoff is the timestamp 3, the
    observations of the times 1 and 2 are dropped, and the center is fitted
    from the other four. *)
Example change_point_cut_on_slipping_eye :
  let recorded :=
      snd (TwoSphere.deep_sphere_estimate None Example.steady_observations) in
  fmap (fun '(sphere_center, cutoff, debug_info) =>
          (Example.vred sphere_center, cutoff,
           option_map (fun d => Example.vred (TwoSphere.residuals d)) debug_info))
       (fst (TwoSphere.deep_sphere_estimate recorded Example.slipping_observations))
  = Ok ([60 # 41; 0; 85 # 2], Some 3, Some [0; 0; 0; 36; 36; 36]).
Proof. vm_compute. reflexivity. Qed.


(** ** Whose state the smoothing record is *)







(** ** The orchestrator: prediction of the pupil circle *)

Section PredictionFacts.

Import Detector.

Context {L : Np.Lib} {G : Geometry} {E : EyeModel} {K : Kalman} {S : Search}.

Lemma predict_from_kalman_filter_eq (d : Detector3D) (timestamp : Q) :
  _predict_from_kalman_filter timestamp d
  = (after_calls d [predict timestamp], Ok (kalman_fallback d timestamp)).
Proof.
  unfold _predict_from_kalman_filter, kalman_fallback, after_calls.
  destruct (predict_value (kalman_filter d) timestamp) as [[phi theta] r].
  reflexivity.
Qed.

Lemma search_ignores_filter (d : Detector3D) (cs : list KalmanCall)
      (frame : Frame) (best_guess : Circle.t) (debug : bool) :
  _predict_from_3d_search (after_calls d cs) frame best_guess debug
  = _predict_from_3d_search d frame best_guess debug.
Proof. reflexivity. Qed.

(** [_predict_pupil_circle] in one equation: it returns the settled circle
    and observation, and makes exactly the calls of [filter_calls] on the
    filter. *)
Lemma predict_pupil_circle_eq (d : Detector3D) (observation : Observation)
      (frame : Frame) :
  _predict_pupil_circle observation frame d
  = (after_calls d (filter_calls d observation frame),
     Ok (settled d observation frame)).
Proof.
  unfold _predict_pupil_circle, bindM, get, ret, filter_calls.
  rewrite predict_from_kalman_filter_eq.
  change (_settings (after_calls d [predict (timestamp observation)]))
    with (_settings d).
  change (short_term_model (after_calls d [predict (timestamp observation)]))
    with (short_term_model d).
  change (long_term_model (after_calls d [predict (timestamp observation)]))
    with (long_term_model d).
  rewrite search_ignores_filter.
  fold (settled d observation frame).
  destruct (settled d observation frame) as [pupil_circle observation'].
  destruct (Cmp.gtb (confidence observation') (threshold_kalman (_settings d)));
    cbn [andb].
  - unfold _correct_kalman_filter.
    destruct (Circle_is_null pupil_circle); cbn [negb].
    + reflexivity.
    + destruct (spherical_representation pupil_circle) as [[phi theta] r].
      reflexivity.
  - reflexivity.
Qed.

Lemma clip_unit_interval (x : Q) : 0 <= Np.clip x 0 1 <= 1.
Proof.
  unfold Np.clip. split.
  - apply Q.min_glb; [|discriminate]. apply Q.le_max_r.
  - apply Q.le_min_r.
Qed.

Lemma confidence_3d_search_bounds (d : Detector3D) (pupil_circle : Circle.t)
      (final_edges : list Edge) :
  0 <= confidence_3d_search d pupil_circle final_edges <= 1.
Proof.
  unfold confidence_3d_search.
  destruct (Circle_is_null pupil_circle); [split; discriminate|].
  destruct (project_circle_into_image_plane _ _ _ _ _);
    [apply clip_unit_interval | split; discriminate].
Qed.

End PredictionFacts.

(** C5.  [_predict_pupil_circle] queries the filter first; the circle built
    from that prediction is the fallback.  When the observation's confidence
    exceeds [threshold_swirski], the returned circle has the normal that the
    short-term model predicts and the center and radius that the long-term
    model predicts, and the observation is returned as it came.  Otherwise
    the returned circle is the one the 3D search finds from the fallback as
    best guess, and the observation's confidence is replaced by the
    confidence of the search (its other fields stay). *)
Theorem C5_prediction_follows_confidence
        {L : Np.Lib} {G : Geometry} {E : Detector.EyeModel}
        {K : Detector.Kalman} {S : Detector.Search}
        (d : Detector.Detector3D) (observation : Detector.Observation)
        (frame : Detector.Frame) :
  let short_term :=
      Detector.predict_pupil_circle (Detector.short_term_model d) observation in
  let long_term :=
      Detector.predict_pupil_circle (Detector.long_term_model d) observation in
  let fallback := kalman_fallback d (Detector.timestamp observation) in
  let found := Detector._predict_from_3d_search d frame fallback false in
  snd (Detector._predict_from_kalman_filter (Detector.timestamp observation) d)
  = Ok fallback
  /\ (Detector.threshold_swirski (Detector._settings d)
      < Detector.confidence observation ->
      exists pupil_circle : Circle.t,
        snd (Detector._predict_pupil_circle observation frame d)
        = Ok (pupil_circle, observation)
        /\ Circle.normal pupil_circle = Circle.normal short_term
        /\ Circle.center pupil_circle = Circle.center long_term
        /\ Circle.radius pupil_circle = Circle.radius long_term)
  /\ (Detector.confidence observation
      <= Detector.threshold_swirski (Detector._settings d) ->
      exists observation' : Detector.Observation,
        snd (Detector._predict_pupil_circle observation frame d)
        = Ok (Detector.circle found, observation')
        /\ Detector.confidence observation' = Detector.search_confidence found
        /\ Detector.confidence_2d observation' = Detector.confidence_2d observation
        /\ Detector.timestamp observation' = Detector.timestamp observation
        /\ Detector.ellipse observation' = Detector.ellipse observation).
Proof.
  cbn zeta. rewrite predict_from_kalman_filter_eq, predict_pupil_circle_eq.
  cbn [snd]. unfold settled.
  split; [reflexivity|]. split; intro H.
  - apply gtb_true in H. rewrite H. eexists. split; [reflexivity|].
    cbn. repeat split.
  - apply gtb_false in H. rewrite H. eexists. split; [reflexivity|].
    cbn. repeat split.
Qed.

Lemma C5_prediction_follows_confidence_witness :
  Detector.threshold_swirski (Detector._settings Example.watching)
  < Detector.confidence Example.observation
  /\ exists pupil_circle : Circle.t,
      snd (Detector._predict_pupil_circle
             Example.observation Example.frame Example.watching)
      = Ok (pupil_circle, Example.observation)
      /\ Circle.normal pupil_circle = Circle.normal Example.circle_a
      /\ Circle.center pupil_circle = Circle.center Example.circle_a
      /\ Circle.radius pupil_circle = Circle.radius Example.circle_a.
Proof.
  assert (H : Detector.threshold_swirski (Detector._settings Example.watching)
              < Detector.confidence Example.observation)
    by (vm_compute; reflexivity).
  split; [exact H|].
  pose proof (C5_prediction_follows_confidence
                Example.watching Example.observation Example.frame) as T.
  cbn zeta in T. destruct T as [_ [T _]].
  exact (T H).
Defined.

(** C6.  [_predict_from_3d_search] answers the null circle with confidence
    0.0 when the best guess is null, without consulting the edge detector,
    and also when the edge detector finds no edge; it is a total function, so
    it raises in neither case.  In every other case the circle is the one
    spanned by the winning gaze vector and radius on the long-term sphere,
    and the confidence is 0.0 if that circle is null or cannot be projected,
    and otherwise the number of final edges over the circumference of its
    projection, clipped to the unit interval.  The confidence always lies
    in the unit interval. *)
Theorem C6_search_confidence
        {L : Np.Lib} {G : Geometry} {E : Detector.EyeModel}
        {K : Detector.Kalman} {S : Detector.Search}
        (d : Detector.Detector3D) (frame : Detector.Frame)
        (best_guess : Circle.t) (debug : bool) :
  let found := Detector._predict_from_3d_search d frame best_guess debug in
  let sphere := Detector.sphere_center (Detector.long_term_model d) in
  let camera := Detector.camera d in
  let edges :=
      snd (fst (Detector.get_edges
                  frame (Circle.normal best_guess) (Circle.radius best_guess)
                  sphere _EYE_RADIUS_DEFAULT (Detector.focal_length camera)
                  (Detector.resolution camera) (25 # 10))) in
  let searched :=
      Detector.search_on_sphere
        edges (Circle.normal best_guess) (Circle.radius best_guess)
        sphere _EYE_RADIUS_DEFAULT (Detector.focal_length camera)
        (Detector.resolution camera) in
  let gaze_vector := fst (fst (fst searched)) in
  let pupil_radius := snd (fst (fst searched)) in
  let final_edges := snd (fst searched) in
  let winner :=
      Circle.make (Np.vadd sphere (Np.vscale _EYE_RADIUS_DEFAULT gaze_vector))
                  gaze_vector pupil_radius in
  Circle_is_null Circle_null = true
  /\ (Circle_is_null best_guess = true ->
      found = Detector.make_search_result Circle_null 0)
  /\ (Circle_is_null best_guess = false -> edges = [] ->
      found = Detector.make_search_result Circle_null 0)
  /\ (Circle_is_null best_guess = false -> edges <> [] ->
      Detector.circle found = winner
      /\ (Circle_is_null winner = true -> Detector.search_confidence found = 0)
      /\ (Circle_is_null winner = false ->
          match project_circle_into_image_plane
                  winner (Detector.focal_length camera) false
                  (fst (Detector.resolution camera))
                  (snd (Detector.resolution camera)) with
          | Some ellipse_2d =>
            Detector.search_confidence found
            = Np.clip (inject_Z (Z.of_nat (length final_edges))
                       / circumference ellipse_2d) 0 1
          | None => Detector.search_confidence found = 0
          end))
  /\ 0 <= Detector.search_confidence found <= 1.
Proof.
  cbn zeta. unfold Detector._predict_from_3d_search.
  split; [apply Circle_null_is_null|].
  destruct (Circle_is_null best_guess) eqn:Hnull.
  - split; [reflexivity|]. split; [discriminate|]. split; [discriminate|].
    cbn. split; discriminate.
  - split; [discriminate|].
    destruct (Detector.get_edges _ _ _ _ _ _ _ _)
      as [[[[frame' frame_roi] edge_frame] edges] roi].
    cbn [fst snd].
    destruct edges as [|edge edges].
    + cbn. split; [reflexivity|]. split; [|split; discriminate].
      intros _ Hne. contradiction Hne. reflexivity.
    + replace (Z.of_nat (length (edge :: edges)) <=? 0)%Z with false
        by (symmetry; apply Z.leb_gt; cbn [length]; lia).
      destruct (Detector.search_on_sphere _ _ _ _ _ _ _)
        as [[[gaze_vector pupil_radius] final_edges] edges_on_sphere].
      cbn [fst snd Detector.circle Detector.search_confidence].
      split; [discriminate|]. split.
      * intros _ _. split; [reflexivity|].
        unfold Detector.confidence_3d_search. split; intro Hw; rewrite Hw.
        -- reflexivity.
        -- destruct (project_circle_into_image_plane _ _ _ _ _); reflexivity.
      * apply confidence_3d_search_bounds.
Qed.

Lemma C6_search_confidence_witness :
  Circle_is_null Example.guess = false
  /\ Example.frame <> []
  /\ Detector.circle
       (Detector._predict_from_3d_search
          Example.watching Example.frame Example.guess false)
     = Circle.make
         (Np.vadd [0; 0; 35] (Np.vscale _EYE_RADIUS_DEFAULT [0; 0; -(1)]))
         [0; 0; -(1)] 2
  /\ 0 <= Detector.search_confidence
            (Detector._predict_from_3d_search
               Example.watching Example.frame Example.guess false) <= 1.
Proof.
  assert (Hguess : Circle_is_null Example.guess = false) by reflexivity.
  assert (Hframe : Example.frame <> []) by discriminate.
  split; [exact Hguess|]. split; [exact Hframe|].
  pose proof (C6_search_confidence
                Example.watching Example.frame Example.guess false) as T.
  cbn zeta in T. destruct T as [_ [_ [_ [T Hbounds]]]].
  split; [exact (proj1 (T Hguess Hframe)) | exact Hbounds].
Defined.

(** The search at work: three edges on a projected circle of radius about
    23 give a confidence of about 0.02. *)
Example search_confidence_of_three_edges :
  Qred (Detector.search_confidence
          (Detector._predict_from_3d_search
             Example.watching Example.frame Example.guess false))
  = 158533868878331543273078784 # 7637059340759462432861328125.
Proof. vm_compute. reflexivity. Qed.

(** C7, as the code has it.  One frame makes one [predict] call on the
    filter and, after it, at most one [correct] call: the [correct] call is
    made exactly when the possibly overwritten confidence exceeds
    [threshold_kalman] and the resulting pupil circle is not null, and its
    measurement is the spherical representation of that circle.  A null
    circle corrects nothing, whatever the confidence. *)
Theorem C7_filter_is_corrected_by_confident_non_null_circles
        {L : Np.Lib} {G : Geometry} {E : Detector.EyeModel}
        {K : Detector.Kalman} {S : Detector.Search}
        (d : Detector.Detector3D) (observation : Detector.Observation)
        (frame : Detector.Frame) :
  exists (d' : Detector.Detector3D) (pupil_circle : Circle.t)
         (observation' : Detector.Observation)
         (corrections : list Detector.KalmanCall),
    Detector._predict_pupil_circle observation frame d
    = (d', Ok (pupil_circle, observation'))
    /\ Detector.kalman_filter d'
       = corrections
           ++ Detector.predict (Detector.timestamp observation)
           :: Detector.kalman_filter d
    /\ (Detector.threshold_kalman (Detector._settings d)
        < Detector.confidence observation'
        /\ Circle_is_null pupil_circle = false ->
        corrections
        = [let '(phi, theta, r) := spherical_representation pupil_circle in
           Detector.correct phi theta r])
    /\ (Detector.confidence observation'
        <= Detector.threshold_kalman (Detector._settings d)
        \/ Circle_is_null pupil_circle = true ->
        corrections = []).
Proof.
  rewrite predict_pupil_circle_eq. unfold filter_calls.
  destruct (settled d observation frame) as [pupil_circle observation'].
  eexists. exists pupil_circle, observation'. eexists.
  split; [reflexivity|]. split.
  - unfold after_calls. cbn [Detector.kalman_filter Detector.set_kalman_filter].
    rewrite <- app_assoc. reflexivity.
  - split.
    + intros [Hc Hn]. apply gtb_true in Hc. rewrite Hc, Hn. cbn [andb negb].
      destruct (spherical_representation pupil_circle) as [[phi theta] r].
      reflexivity.
    + intros [Hc|Hn].
      * apply gtb_false in Hc. rewrite Hc. reflexivity.
      * rewrite Hn, andb_false_r. reflexivity.
Qed.

Lemma C7_filter_is_corrected_by_confident_non_null_circles_witness :
  exists (d' : Detector.Detector3D) (pupil_circle : Circle.t)
         (observation' : Detector.Observation)
         (corrections : list Detector.KalmanCall),
    Detector._predict_pupil_circle
      Example.observation Example.frame Example.watching
    = (d', Ok (pupil_circle, observation'))
    /\ Detector.kalman_filter d'
       = corrections ++ [Detector.predict 1].
Proof.
  destruct (C7_filter_is_corrected_by_confident_non_null_circles
              Example.watching Example.observation Example.frame)
    as [d' [pupil_circle [observation' [corrections [Hout [Hfilter _]]]]]].
  exists d', pupil_circle, observation', corrections.
  split; [exact Hout | exact Hfilter].
Defined.

(** The correction at work: an observation of confidence 0.99 and a circle
    of radius 2 give one [correct] call, made after the [predict] call. *)
Example confident_circle_corrects_the_filter :
  Detector.kalman_filter
    (fst (Detector._predict_pupil_circle
            Example.observation Example.frame Example.watching))
  = [Detector.correct 0 (3 # 5) 2; Detector.predict 1].
Proof. vm_compute. reflexivity. Qed.

(** C7 as stated fails: an observation of confidence 0.99, above the
    correction threshold 0.98, for which the models predict the null circle
    (as they do for an ellipse that cannot be unprojected) leaves the filter
    with its [predict] call alone; no [correct] call is made. *)
Lemma C7_null_circle_is_not_fed_to_the_filter :
  let unpredicted := Circle.make [0; 0; 0] [0; 0; -(1)] 0 in
  let t := Example.tier 1 (Raise LinAlgError) unpredicted in
  let d := Example.detector t t t in
  let observation := Detector._extract_observation d Example.datum in
  let out := Detector._predict_pupil_circle observation (@nil Np.Vec) d in
  exists observation' : Detector.Observation,
    snd out = Ok (unpredicted, observation')
    /\ Detector.threshold_kalman (Detector._settings d)
       < Detector.confidence observation'
    /\ Detector.kalman_filter (fst out) = [Detector.predict 1].
Proof.
  cbn zeta. eexists. split; [vm_compute; reflexivity|].
  split; vm_compute; reflexivity.
Qed.


(** ** The orchestrator: a failed update cycle *)

Section UpdateProof.

Import Detector.

Context {L : Np.Lib} {G : Geometry} {E : EyeModel} {K : Kalman} {S : Search}.

Ltac reduce := cbn -[Schedule.is_update_due sigmoid centers].

(** Closes the conjunction left in each case of the cycle: a tier whose
    solve raised, or which was not refitted, has the centers it had. *)
Ltac settle Hadd Hraise :=
  repeat split; try reflexivity; try apply Hadd;
  match goal with
  | H : estimate_sphere_center _ _ _ _ = (?m, Raise _) |- centers ?m = _ =>
    rewrite (Hraise _ _ _ _ _ _ H); apply Hadd
  end.

(** C1, as the code has it.  Take a cycle in which the three storages are
    non-empty and a solve of the fitting sequence raises.  [update_models]
    catches the exception and returns, and both log records are written.
    Nothing is rolled back: a tier whose refit had completed before the
    failing step has the state that refit gave it.  Every other tier (the one
    whose solve raised, those that come later in the sequence, and any that
    was not due) has the sphere center and the corrected sphere center it had
    before the call; the short-term tier, which is fitted last, is always
    among them.  This relies on what a tier promises: adding an observation
    does not move its centers, and a solve that raises assigns none. *)
Theorem C1_failed_cycle_keeps_only_unfitted_tiers
        (d : Detector.Detector3D) (observation : Detector.Observation)
        (e : exn)
        (Hcontract : centers_contract)
        (Hstored : Detector.storages_non_empty
                     (Detector.add_to_storages observation d) = true)
        (Hfail : snd (Detector.fitting_sequence
                        observation (Detector.add_to_storages observation d))
                 = Raise e) :
  let d' := fst (Detector.update_models observation d) in
  snd (Detector.update_models observation d) = Ok tt
  /\ Detector.logger d'
     = Detector.logger d
       ++ [Detector.log_error_updating_models; Detector.log_debug_traceback e]
  /\ centers (Detector.short_term_model d')
     = centers (Detector.short_term_model d)
  /\ (if lt_completed d observation
      then Detector.long_term_model d' = fst (lt_refit d observation)
      else centers (Detector.long_term_model d')
           = centers (Detector.long_term_model d))
  /\ (if ult_completed d observation
      then Detector.ultra_long_term_model d' = fst (ult_refit d observation)
      else centers (Detector.ultra_long_term_model d')
           = centers (Detector.ultra_long_term_model d)).
Proof.
  destruct Hcontract as [Hadd Hraise]. cbn zeta.
  unfold update_models, bindM, modify, get, ret, try_except.
  rewrite Hstored.
  unfold lt_completed, ult_completed, lt_refit, ult_then, ult_refit,
    lt_due, ult_due.
  revert Hfail.
  unfold fitting_sequence, bindM, get, ret, ult_long_term_is_update_due,
    long_term_is_update_due, ultra_long_term_estimate, long_term_estimate,
    short_term_estimate.
  destruct (Schedule.is_update_due (_long_term_schedule d) (timestamp observation))
    as [due_lt sl] eqn:El.
  destruct (Schedule.is_update_due (_ult_long_term_schedule d)
                                   (timestamp observation))
    as [due_ult su] eqn:Eu.
  reduce. rewrite Eu. reduce.
  destruct due_ult; reduce.
  - destruct (estimate_sphere_center
                (add_observation (ultra_long_term_model d) observation)
                None None 0) as [mu [estu|eu]] eqn:Hu; reduce.
    + rewrite El. reduce. destruct due_lt; reduce.
      * destruct (estimate_sphere_center
                    (add_observation (long_term_model d) observation)
                    None (Some (sphere_center mu)) (1 # 10))
          as [ml [estl|el]] eqn:Hl; reduce.
        -- destruct (estimate_sphere_center
                       (add_observation (short_term_model d) observation) _ _ _)
             as [ms [ests|es]] eqn:Hs; reduce; [discriminate|].
           intro He. injection He as ->. settle Hadd Hraise.
        -- intro He. injection He as ->. settle Hadd Hraise.
      * destruct (estimate_sphere_center
                    (add_observation (short_term_model d) observation) _ _ _)
          as [ms [ests|es]] eqn:Hs; reduce; [discriminate|].
        intro He. injection He as ->. settle Hadd Hraise.
    + intro He. injection He as ->. settle Hadd Hraise.
  - rewrite El. reduce. destruct due_lt; reduce.
    + destruct (estimate_sphere_center
                  (add_observation (long_term_model d) observation)
                  None _ (1 # 10))
        as [ml [estl|el]] eqn:Hl; reduce.
      * destruct (estimate_sphere_center
                    (add_observation (short_term_model d) observation) _ _ _)
          as [ms [ests|es]] eqn:Hs; reduce; [discriminate|].
        intro He. injection He as ->. settle Hadd Hraise.
      * intro He. injection He as ->. settle Hadd Hraise.
    + destruct (estimate_sphere_center
                  (add_observation (short_term_model d) observation) _ _ _)
        as [ms [ests|es]] eqn:Hs; reduce; [discriminate|].
      intro He. injection He as ->. settle Hadd Hraise.
Qed.

End UpdateProof.


Lemma scripted_tier_contract : @centers_contract Example.eye_model.
Proof.
  split.
  - intros m o. unfold centers. cbn. unfold Example.tier_add.
    destruct (Cmp.geb _ _); reflexivity.
  - intros m m' from_2d prior_3d prior_strength e. cbn.
    unfold Example.tier_estimate.
    destruct (Example.tier_next_solve m); intro H; inversion H. reflexivity.
Qed.

Lemma C1_failed_cycle_keeps_only_unfitted_tiers_witness :
  let refitted := Ok (Detector.make_estimates [1; 1] [1; 2; 30]) in
  let d := Example.detector
             (Example.tier 0 refitted Example.circle_a)
             (Example.tier 0 (Raise LinAlgError) Example.circle_a)
             (Example.tier 0 refitted Example.circle_a) in
  let observation := Detector._extract_observation d Example.datum in
  let d' := fst (Detector.update_models observation d) in
  Detector.storages_non_empty (Detector.add_to_storages observation d) = true
  /\ snd (Detector.fitting_sequence
            observation (Detector.add_to_storages observation d))
     = Raise LinAlgError
  /\ snd (Detector.update_models observation d) = Ok tt
  /\ centers (Detector.short_term_model d')
     = centers (Detector.short_term_model d).
Proof.
  cbn zeta.
  split; [vm_compute; reflexivity|].
  split; [vm_compute; reflexivity|].
  pose proof (C1_failed_cycle_keeps_only_unfitted_tiers
                (Example.detector
                   (Example.tier 0 (Ok (Detector.make_estimates [1; 1] [1; 2; 30]))
                                 Example.circle_a)
                   (Example.tier 0 (Raise LinAlgError) Example.circle_a)
                   (Example.tier 0 (Ok (Detector.make_estimates [1; 1] [1; 2; 30]))
                                 Example.circle_a))
                (Detector._extract_observation
                   (Example.detector
                      (Example.tier 0 (Ok (Detector.make_estimates [1; 1] [1; 2; 30]))
                                    Example.circle_a)
                      (Example.tier 0 (Raise LinAlgError) Example.circle_a)
                      (Example.tier 0 (Ok (Detector.make_estimates [1; 1] [1; 2; 30]))
                                    Example.circle_a))
                   Example.datum)
                scripted_tier_contract eq_refl eq_refl) as H.
  cbn zeta in H. destruct H as [Hret [_ [Hshort _]]].
  split; [exact Hret | exact Hshort].
Defined.

(** C1 as stated fails.  All three storages hold the observation and both
    schedules are due on their first call.  The ultra-long-term solve
    succeeds and moves that tier's sphere center from (0, 0, 35) to
    (1, 2, 30); the long-term solve then raises [LinAlgError].  The exception
    is caught and logged, and the ultra-long-term tier keeps its new
    center. *)
Lemma C1_completed_refit_survives_the_failure :
  let refitted := Ok (Detector.make_estimates [1; 1] [1; 2; 30]) in
  let d := Example.detector
             (Example.tier 0 refitted Example.circle_a)
             (Example.tier 0 (Raise LinAlgError) Example.circle_a)
             (Example.tier 0 refitted Example.circle_a) in
  let observation := Detector._extract_observation d Example.datum in
  let d' := fst (Detector.update_models observation d) in
  Detector.storages_non_empty (Detector.add_to_storages observation d) = true
  /\ snd (Detector.fitting_sequence
            observation (Detector.add_to_storages observation d))
     = Raise LinAlgError
  /\ Detector.logger d'
     = [Detector.log_error_updating_models;
        Detector.log_debug_traceback LinAlgError]
  /\ Detector.sphere_center (Detector.ultra_long_term_model d) = [0; 0; 35]
  /\ Detector.sphere_center (Detector.ultra_long_term_model d') = [1; 2; 30]
  /\ ~ nth 2 (Detector.sphere_center (Detector.ultra_long_term_model d')) 0
       == nth 2 (Detector.sphere_center (Detector.ultra_long_term_model d)) 0.
Proof.
  cbn zeta.
  split; [vm_compute; reflexivity|].
  split; [vm_compute; reflexivity|].
  split; [vm_compute; reflexivity|].
  split; [vm_compute; reflexivity|].
  split; [vm_compute; reflexivity|].
  intro H. vm_compute in H. discriminate H.
Qed.

(** * Part III: further properties of the embedded code *)

(** ** The schedule over whole histories *)

Section ScheduleHistories.

Import Schedule ScheduleOps.

(** One call on a running schedule, as a pair. *)
Lemma running_call (interval warmup t0 : Q) (acc : option Q) (t : Q) :
  let s := make interval warmup (Some t0) false acc in
  is_update_due s t
  = (fst (is_update_due s t),
     make interval warmup (Some t0) false
          (if fst (is_update_due s t) && negb (in_warmup warmup t0 t)
           then Some t else acc)).
Proof.
  cbn zeta. rewrite <- (running_step interval warmup t0 acc t).
  apply surjective_pairing.
Qed.

Lemma steady_true_is_late (interval warmup t0 l t : Q) :
  let s := make interval warmup (Some t0) false (Some l) in
  fst (is_update_due s t) && negb (in_warmup warmup t0 t) = true ->
  interval < t - l.
Proof.
  cbn zeta. unfold is_update_due, in_warmup. cbn.
  destruct (Cmp.ltb (t - t0) warmup); cbn.
  - discriminate.
  - destruct (Cmp.gtb (t - l) interval) eqn:E; cbn; [|discriminate].
    intros _. apply gtb_true. exact E.
Qed.

Lemma running_spaced (interval warmup t0 : Q) (ts : list Q) :
  forall acc : option Q,
    spaced interval acc
           (steady_trues warmup t0 ts
              (fst (calls (make interval warmup (Some t0) false acc) ts))).
Proof.
  induction ts as [|t ts IH]; intro acc; [exact I|].
  cbn [calls]. rewrite running_call.
  set (due := fst (is_update_due (make interval warmup (Some t0) false acc) t)).
  assert (Hlate : due && negb (in_warmup warmup t0 t) = true ->
                  match acc with Some l => interval < t - l | None => True end).
  { destruct acc as [l|]; [|trivial]. apply steady_true_is_late. }
  specialize (IH (if due && negb (in_warmup warmup t0 t) then Some t else acc)).
  destruct (calls _ ts) as [dues s']. cbn [fst steady_trues] in *.
  destruct (due && negb (in_warmup warmup t0 t)).
  - cbn [spaced]. split; [apply Hlate; reflexivity | exact IH].
  - exact IH.
Qed.

End ScheduleHistories.

(** X1.  The steady phase never fires twice within the interval: among the
    calls that follow the first call of a fresh schedule, each one that
    returns true outside the warmup window comes more than
    [update_interval] after the previous one that did, whatever the order of
    the timestamps. *)
Theorem X1_steady_updates_are_spaced (interval warmup t0 : Q) (ts : list Q) :
  let dues := fst (Schedule.calls (Schedule.init interval warmup) (t0 :: ts)) in
  ScheduleOps.spaced interval None
                     (ScheduleOps.steady_trues warmup t0 ts (tl dues)).
Proof.
  cbn zeta. cbn [Schedule.calls]. rewrite first_call_due.
  pose proof (running_spaced interval warmup t0 ts None) as H.
  destruct (Schedule.calls _ ts) as [dues s']. cbn [fst tl] in *. exact H.
Qed.

(** X2.  No operation moves the warmup window or the configuration: over
    any sequence of [is_update_due], [pause] and [resume], the interval and
    the warmup duration stay what the constructor was given, and a warmup
    start, once set, is never changed (pausing does not stop that clock and
    resuming does not restart it). *)
Theorem X2_warmup_start_is_written_once
        (s : Schedule._ModelUpdateSchedule) (ops : list ScheduleOps.op) :
  Schedule._update_interval (ScheduleOps.run s ops) = Schedule._update_interval s
  /\ Schedule._warmup_duration (ScheduleOps.run s ops)
     = Schedule._warmup_duration s
  /\ forall w : Q,
      Schedule._warmup_start s = Some w ->
      Schedule._warmup_start (ScheduleOps.run s ops) = Some w.
Proof.
  unfold ScheduleOps.run. revert s.
  induction ops as [|o ops IH]; intro s; [repeat split; auto|].
  cbn [fold_left]. destruct (IH (ScheduleOps.apply s o)) as [Hi [Hw Hs]].
  assert (Hstep : Schedule._update_interval (ScheduleOps.apply s o)
                  = Schedule._update_interval s
                  /\ Schedule._warmup_duration (ScheduleOps.apply s o)
                     = Schedule._warmup_duration s
                  /\ forall w : Q,
                      Schedule._warmup_start s = Some w ->
                      Schedule._warmup_start (ScheduleOps.apply s o) = Some w).
  { destruct o as [t| |]; cbn [ScheduleOps.apply].
    - unfold Schedule.is_update_due.
      destruct (Schedule._paused s); [cbn; auto|].
      destruct (Schedule._warmup_start s) as [w0|] eqn:Ew.
      + destruct (Cmp.ltb (t - w0) (Schedule._warmup_duration s));
          [cbn; rewrite Ew; auto|].
        destruct (Schedule._last_update s) as [l|].
        * destruct (Cmp.gtb (t - l) (Schedule._update_interval s));
            cbn; rewrite ?Ew; auto.
        * cbn. rewrite ?Ew. auto.
      + cbn. repeat split; auto. intros w Hw'. discriminate Hw'.
    - cbn. auto.
    - cbn. auto. }
  destruct Hstep as [Hi' [Hw' Hs']].
  split; [congruence|]. split; [congruence|].
  intros w Hw0. apply Hs. apply Hs'. exact Hw0.
Qed.

Lemma X2_warmup_start_is_written_once_witness :
  let s := snd (Schedule.is_update_due (Schedule.init 10 5) 3) in
  let ops := [ScheduleOps.do_pause; ScheduleOps.call 4; ScheduleOps.do_resume;
              ScheduleOps.call 9; ScheduleOps.call 30] in
  Schedule._warmup_start s = Some 3
  /\ Schedule._warmup_start (ScheduleOps.run s ops) = Some 3.
Proof.
  cbn zeta. split; [reflexivity|].
  exact (proj2 (proj2 (X2_warmup_start_is_written_once
                         (snd (Schedule.is_update_due (Schedule.init 10 5) 3))
                         [ScheduleOps.do_pause; ScheduleOps.call 4;
                          ScheduleOps.do_resume; ScheduleOps.call 9;
                          ScheduleOps.call 30]))
               3 eq_refl).
Defined.

(** X3.  A paused schedule is inert: any sequence of calls made while it is
    paused returns false every time and leaves the schedule exactly as it
    was, so a schedule paused before its first call has not opened its warmup
    window. *)
Theorem X3_paused_schedule_is_inert
        (s : Schedule._ModelUpdateSchedule) (ts : list Q)
        (Hpaused : Schedule._paused s = true) :
  Schedule.calls s ts = (repeat false (length ts), s).
Proof.
  induction ts as [|t ts IH]; [reflexivity|].
  cbn [Schedule.calls length repeat].
  rewrite (paused_not_due s t Hpaused), IH. reflexivity.
Qed.

Lemma X3_paused_schedule_is_inert_witness :
  Schedule._paused (Schedule.pause (Schedule.init 10 5)) = true
  /\ Schedule.calls (Schedule.pause (Schedule.init 10 5)) [0; 7; 100]
     = ([false; false; false], Schedule.pause (Schedule.init 10 5)).
Proof.
  split; [reflexivity|].
  exact (X3_paused_schedule_is_inert
           (Schedule.pause (Schedule.init 10 5)) [0; 7; 100] eq_refl).
Defined.

(** X4.  A call that answers false changes nothing, and on a schedule that
    is not paused it answers false only in the steady phase: the warmup
    window has been opened and is over, an update is on record, and no more
    than [update_interval] has elapsed since that update. *)
Theorem X4_false_answer_leaves_the_schedule
        (s : Schedule._ModelUpdateSchedule) (t : Q)
        (Hfalse : fst (Schedule.is_update_due s t) = false) :
  snd (Schedule.is_update_due s t) = s
  /\ (Schedule._paused s = false ->
      exists w l : Q,
        Schedule._warmup_start s = Some w
        /\ Schedule._warmup_duration s <= t - w
        /\ Schedule._last_update s = Some l
        /\ t - l <= Schedule._update_interval s).
Proof.
  revert Hfalse. unfold Schedule.is_update_due.
  destruct (Schedule._paused s); [intros _; split; [reflexivity|discriminate]|].
  destruct (Schedule._warmup_start s) as [w|]; [|discriminate].
  destruct (Cmp.ltb (t - w) (Schedule._warmup_duration s)) eqn:Ew; [discriminate|].
  destruct (Schedule._last_update s) as [l|]; [|discriminate].
  destruct (Cmp.gtb (t - l) (Schedule._update_interval s)) eqn:El; [discriminate|].
  intros _. split; [reflexivity|]. intros _. exists w, l.
  apply ltb_false in Ew. apply gtb_false in El. repeat split; assumption.
Qed.

Lemma X4_false_answer_leaves_the_schedule_witness :
  let s := snd (Schedule.calls (Schedule.init 10 5) [0; 6]) in
  fst (Schedule.is_update_due s 8) = false
  /\ snd (Schedule.is_update_due s 8) = s.
Proof.
  cbn zeta. split; [reflexivity|].
  exact (proj1 (X4_false_answer_leaves_the_schedule
                  (snd (Schedule.calls (Schedule.init 10 5) [0; 6])) 8 eq_refl)).
Defined.

(** ** [deep_sphere_estimate]: inputs at the edge, and what it records *)

(** X5.  With no observation to fit, [deep_sphere_estimate] raises
    [IndexError] (the sum of no auxiliary matrix is a scalar, which cannot be
    sliced) and leaves the module globals as they were, whether or not a
    previous fit is on record. *)
Theorem X5_no_observation_raises_index_error
        {L : Np.Lib} {O : TwoSphere.ObservationAPI} (g : TwoSphere.Globals) :
  TwoSphere.deep_sphere_estimate g [] = (Raise IndexError, g).
Proof. destruct g as [prev|]; reflexivity. Qed.

Lemma select_observations_fitted
      {L : Np.Lib} {O : TwoSphere.ObservationAPI}
      (g : TwoSphere.Globals) (observations kept : list TwoSphere.Observation)
      (cutoff : option Q) (debug_info : option TwoSphere.DebugInfo) :
  TwoSphere.select_observations g observations = Ok (kept, cutoff, debug_info) ->
  kept = fitted cutoff observations.
Proof.
  unfold TwoSphere.select_observations.
  destruct g as [prev|]; [|intro H; inversion H; reflexivity].
  destruct (Cmp.gtb _ 2); [|intro H; inversion H; reflexivity].
  destruct (TwoSphere.max_change_idx _) as [idx|e]; cbn [bind]; [|discriminate].
  destruct (nth_error observations idx) as [obs|]; [|discriminate].
  intro H. inversion H. reflexivity.
Qed.

Lemma dot_products_length (p : Np.Vec) (observations : list TwoSphere.Observation) :
  length (TwoSphere.dot_products p observations) = length observations.
Proof.
  unfold TwoSphere.dot_products.
  induction observations as [|o os IH]; cbn; [reflexivity|].
  f_equal. exact IH.
Qed.

Lemma disambiguation_indices_binary (dots : list Q) :
  Forall (fun i => (i <= 1)%nat) (TwoSphere.disambiguation_indices dots).
Proof.
  unfold TwoSphere.disambiguation_indices.
  induction dots as [|d dots IH]; cbn; constructor; [|exact IH].
  destruct (Cmp.ltb d 0); lia.
Qed.

Lemma estimate_new_model_non_empty {L : Np.Lib}
      (observations : list TwoSphere.Observation) (fit : Np.Vec * list nat) :
  TwoSphere.estimate_new_model observations = Ok fit -> observations <> [].
Proof. intros H ->. discriminate H. Qed.

Lemma last_in {A : Type} (l : list A) (d : A) : l <> [] -> In (last l d) l.
Proof.
  induction l as [|x l IH]; [congruence|]. intros _.
  destruct l as [|y l]; [left; reflexivity|].
  right. apply IH. discriminate.
Qed.

Lemma fitted_incl (cutoff : option Q) (observations : list TwoSphere.Observation) :
  incl (fitted cutoff observations) observations.
Proof.
  destruct cutoff as [c|]; [|apply incl_refl].
  intros obs H. apply keep_from_spec in H. tauto.
Qed.

(** X6.  What a call leaves in the module globals.  A call that raises
    leaves them untouched.  A call that returns records its own result: the
    center it returned, one disambiguation index (0 or 1) for each
    observation it fitted, and the timestamp of the last fitted observation,
    which is the timestamp of one of the observations passed; it fitted at
    least one observation. *)
Theorem X6_globals_record_the_returned_fit
        {L : Np.Lib} {O : TwoSphere.ObservationAPI}
        (g : TwoSphere.Globals) (observations : list TwoSphere.Observation) :
  let r := TwoSphere.deep_sphere_estimate g observations in
  (forall e : exn, fst r = Raise e -> snd r = g)
  /\ (forall (sphere_center : Np.Vec) (cutoff : option Q)
             (debug_info : option TwoSphere.DebugInfo),
         fst r = Ok (sphere_center, cutoff, debug_info) ->
         exists indices : list nat,
           snd r = Some (TwoSphere.make_prev
                           sphere_center indices
                           (last (map TwoSphere.timestamp
                                      (fitted cutoff observations)) 0))
           /\ length indices = length (fitted cutoff observations)
           /\ Forall (fun i => (i <= 1)%nat) indices
           /\ fitted cutoff observations <> []
           /\ In (last (map TwoSphere.timestamp (fitted cutoff observations)) 0)
                 (map TwoSphere.timestamp observations)).
Proof.
  cbn zeta. unfold TwoSphere.deep_sphere_estimate.
  destruct (TwoSphere.select_observations g observations)
    as [[[kept cut] dbg]|e0] eqn:Hsel; cbn [bind].
  - apply select_observations_fitted in Hsel.
    destruct (TwoSphere.estimate_new_model kept) as [[c idxs]|e1] eqn:Hfit;
      cbn [bind fst snd].
    + split; [discriminate|].
      intros sphere_center cutoff debug_info H. inversion H; subst c cut dbg.
      exists idxs. subst kept. split; [reflexivity|].
      destruct (estimate_new_model_indices _ Hfit) as [p [_ Hidx]].
      split; [rewrite Hidx; unfold TwoSphere.disambiguation_indices;
              rewrite length_map; apply dot_products_length|].
      split; [rewrite Hidx; apply disambiguation_indices_binary|].
      pose proof (estimate_new_model_non_empty Hfit) as Hne.
      split; [exact Hne|].
      apply (incl_map TwoSphere.timestamp (fitted_incl cutoff observations)).
      apply last_in. intro Hnil. apply Hne.
      destruct (fitted cutoff observations); [reflexivity|discriminate Hnil].
    + split; [reflexivity|discriminate].
  - cbn [fst snd]. split; [reflexivity|discriminate].
Qed.

Lemma nondecreasing_head_least (x : Q) (rest : list Q) :
  nondecreasing (x :: rest) -> Forall (fun y => x <= y) rest.
Proof.
  revert x. induction rest as [|y rest IH]; intros x H; constructor.
  - exact (proj1 H).
  - destruct H as [Hxy Hrest]. apply IH in Hrest.
    apply (Forall_impl (fun z => x <= z)) in Hrest; [exact Hrest|].
    intros z Hyz. apply (Qle_trans _ y); assumption.
Qed.

Lemma keep_from_all (cutoff : Q) (observations : list TwoSphere.Observation) :
  Forall (fun t => cutoff <= t) (map TwoSphere.timestamp observations) ->
  TwoSphere.keep_from cutoff observations = observations.
Proof.
  unfold TwoSphere.keep_from.
  induction observations as [|o os IH]; [reflexivity|].
  intro H. inversion H as [|t ts Ho Hos]; subst. cbn [filter].
  apply geb_true in Ho. rewrite Ho, (IH Hos). reflexivity.
Qed.

Lemma keep_from_sorted (cutoff : Q) (observations : list TwoSphere.Observation) :
  nondecreasing (map TwoSphere.timestamp observations) ->
  exists j : nat,
    TwoSphere.keep_from cutoff observations = skipn j observations
    /\ forall (i : nat) (obs : TwoSphere.Observation),
        nth_error observations i = Some obs ->
        cutoff <= TwoSphere.timestamp obs -> (j <= i)%nat.
Proof.
  induction observations as [|o os IH]; intro Hsorted.
  - exists 0%nat. split; [reflexivity|]. intros i obs H. lia.
  - destruct (Cmp.geb (TwoSphere.timestamp o) cutoff) eqn:Ho.
    + exists 0%nat. split; [|intros; lia].
      cbn [skipn]. apply keep_from_all. cbn [map]. constructor.
      * apply geb_true. exact Ho.
      * apply nondecreasing_head_least in Hsorted.
        apply (Forall_impl _ (P := fun y => TwoSphere.timestamp o <= y));
          [|exact Hsorted].
        intros y Hy. apply geb_true in Ho.
        apply (Qle_trans _ (TwoSphere.timestamp o)); assumption.
    + assert (Hrest : nondecreasing (map TwoSphere.timestamp os)).
      { cbn [map] in Hsorted. destruct (map TwoSphere.timestamp os);
          [exact I | exact (proj2 Hsorted)]. }
      destruct (IH Hrest) as [j [Hj Hleast]].
      exists (S j). split.
      * unfold TwoSphere.keep_from in *. cbn [filter skipn]. rewrite Ho. exact Hj.
      * intros [|i] obs Hnth Hle; cbn in Hnth.
        -- injection Hnth as <-. apply geb_false in Ho.
           exfalso. apply (Qlt_not_le _ _ Ho Hle).
        -- specialize (Hleast i obs Hnth Hle). lia.
Qed.

(** X7.  On observations in the order of acquisition (non-decreasing
    timestamps), cutting at the timestamp of the observation at index [idx]
    drops a prefix and nothing else: what is kept is the sequence from some
    index on, that index is at most [idx], and the observation at [idx] is
    kept. *)
Theorem X7_cut_keeps_a_suffix
        (observations : list TwoSphere.Observation) (idx : nat)
        (obs_cut : TwoSphere.Observation)
        (Hsorted : nondecreasing (map TwoSphere.timestamp observations))
        (Hidx : nth_error observations idx = Some obs_cut) :
  exists j : nat,
    (j <= idx)%nat
    /\ TwoSphere.keep_from (TwoSphere.timestamp obs_cut) observations
       = skipn j observations
    /\ In obs_cut (TwoSphere.keep_from (TwoSphere.timestamp obs_cut) observations).
Proof.
  destruct (keep_from_sorted (TwoSphere.timestamp obs_cut) observations Hsorted)
    as [j [Hj Hleast]].
  exists j. split; [apply (Hleast idx obs_cut Hidx); apply Qle_refl|].
  split; [exact Hj|].
  apply keep_from_spec. split; [|apply Qle_refl].
  apply (nth_error_In _ _ Hidx).
Qed.

Lemma X7_cut_keeps_a_suffix_witness :
  nondecreasing (map TwoSphere.timestamp Example.slipping_observations)
  /\ nth_error Example.slipping_observations 2
     = Some (Example.observe
               (Example.pair_towards Example.eye_before Example.left) 3)
  /\ exists j : nat,
      (j <= 2)%nat
      /\ TwoSphere.keep_from 3 Example.slipping_observations
         = skipn j Example.slipping_observations.
Proof.
  assert (Hsorted : nondecreasing
                      (map TwoSphere.timestamp Example.slipping_observations)).
  { cbn. repeat split; discriminate. }
  split; [exact Hsorted|]. split; [reflexivity|].
  destruct (X7_cut_keeps_a_suffix
              Example.slipping_observations 2 Hsorted eq_refl)
    as [j [Hle [Hkeep _]]].
  exists j. split; [exact Hle | exact Hkeep].
Defined.

(** ** [predict_pupil_circle]: what the options change *)

(** X8.  [use_unprojection] changes the normal of the predicted circle and
    nothing else: the center and the radius are the same with and without
    it.  With it, a valid circle passes its own normal on.  The circle
    worked from, when a pair is given, is always one of the two members of
    that pair. *)
Theorem X8_use_unprojection_changes_only_the_normal
        {G : Geometry} {L : Np.Lib}
        (self : TwoSphere.TwoSphereModel) (input_ : TwoSphere.predict_input) :
  Circle.center (TwoSphere.predict_pupil_circle self input_ true)
  = Circle.center (TwoSphere.predict_pupil_circle self input_ false)
  /\ Circle.radius (TwoSphere.predict_pupil_circle self input_ true)
     = Circle.radius (TwoSphere.predict_pupil_circle self input_ false)
  /\ (Circle_bool (disambiguated self input_) = true ->
      Circle.normal (TwoSphere.predict_pupil_circle self input_ true)
      = Circle.normal (disambiguated self input_))
  /\ (forall circle_3d_pair : Circle.t * Circle.t,
         input_ = TwoSphere.from_given_circle_3d_pair circle_3d_pair ->
         disambiguated self input_ = fst circle_3d_pair
         \/ disambiguated self input_ = snd circle_3d_pair).
Proof.
  unfold TwoSphere.predict_pupil_circle. fold (disambiguated self input_).
  destruct (Circle_bool (disambiguated self input_)).
  - cbn. repeat split; try reflexivity.
    intros circle_3d_pair ->. cbn [disambiguated].
    unfold TwoSphere._disambiguate_circle_3d_pair.
    destruct (Cmp.geb _ 0); [left|right]; reflexivity.
  - cbn. repeat split; try reflexivity; try discriminate.
    intros circle_3d_pair ->. cbn [disambiguated].
    unfold TwoSphere._disambiguate_circle_3d_pair.
    destruct (Cmp.geb _ 0); [left|right]; reflexivity.
Qed.

(** ** The legacy model: storage, reset *)



(** X10.  [reset] does not bring the object back to what the constructor
    builds.  The constructor and [set_sphere_center] keep the corrected
    sphere center equal to the correction of the sphere center; [reset] puts
    the sphere center and the storage back but does not assign the corrected
    center, which stays that of the last center set, and the debug dict it
    installs has no key "Dierkes_lines" (it spells it "dierkes_lines"). *)
Theorem X10_reset_keeps_the_last_corrected_center
        {G : Geometry} {L : Np.Lib} {C : Legacy.Collaborators}
        (self : Legacy.State) (new_sphere_center : Np.Vec) :
  let moved := Legacy.set_sphere_center self new_sphere_center in
  let again := Legacy.reset moved in
  let built := Legacy.init (TwoSphere.settings (Legacy.model self)) in
  TwoSphere.corrected_sphere_center (Legacy.model built)
  = Legacy.corrected (TwoSphere.sphere_center (Legacy.model built))
  /\ TwoSphere.corrected_sphere_center (Legacy.model moved)
     = Legacy.corrected (TwoSphere.sphere_center (Legacy.model moved))
  /\ TwoSphere.sphere_center (Legacy.model again)
     = TwoSphere.sphere_center (Legacy.model built)
  /\ Legacy.observation_storage again = Legacy.observation_storage built
  /\ TwoSphere.corrected_sphere_center (Legacy.model again)
     = Legacy.corrected new_sphere_center
  /\ Legacy.lookup (Legacy.debug_info built) "Dierkes_lines"%string
     = Some (Legacy.debug_list [])
  /\ Legacy.lookup (Legacy.debug_info again) "Dierkes_lines"%string = None.
Proof. cbn zeta. repeat split. Qed.

(** The stale center at work: after the center (1, 2, 30) was set, a reset
    leaves the corrected center at (0.9, 1.8, 27), where a newly built
    object has (0, 0, 31.5). *)
Example reset_leaves_a_stale_corrected_center :
  let again :=
      Legacy.reset (Legacy.set_sphere_center ExampleMore.state [1; 2; 30]) in
  Example.vred (TwoSphere.corrected_sphere_center (Legacy.model again))
  = [9 # 10; 9 # 5; 27]
  /\ Example.vred
       (TwoSphere.corrected_sphere_center (Legacy.model ExampleMore.state))
     = [0; 0; 63 # 2].
Proof. split; vm_compute; reflexivity. Qed.

(** ** The detector object: modes and resets *)

(** X21.  [DetectorMode.from_name] inverts [name]: every mode is found
    under its own name, and a name under which a mode is found is the name of
    that mode, so any other string is a [KeyError]. *)
Theorem X21_from_name_inverts_name :
  (forall mode : Pipeline.DetectorMode,
      Pipeline.from_name (Pipeline.mode_name mode) = Some mode)
  /\ (forall (name : String.string) (mode : Pipeline.DetectorMode),
         Pipeline.from_name name = Some mode -> name = Pipeline.mode_name mode)
  /\ Pipeline.from_name "Blocking"%string = None.
Proof.
  split; [intros [|]; reflexivity|]. split; [|reflexivity].
  intros name mode. unfold Pipeline.from_name. cbn [map Legacy.lookup].
  cbn [Pipeline.mode_name fst snd].
  destruct (String.eqb "blocking" name) eqn:Eb.
  - intro H. inversion H; subst mode. apply String.eqb_eq in Eb.
    symmetry. exact Eb.
  - destruct (String.eqb "asynchronous" name) eqn:Ea; [|discriminate].
    intro H. inversion H; subst mode. apply String.eqb_eq in Ea.
    symmetry. exact Ea.
Qed.

(** X22.  Setting the mode a detector already has changes nothing.  Setting
    another mode resets it: the three models are cleaned up and built anew
    (the short-term one of the blocking class, the other two of the new
    mode), the filter has no history, the camera, settings and log are kept,
    and both schedules are new, so the next call of each answers true and
    the warmup starts over. *)
Theorem X22_changing_the_mode_resets
        {L : Np.Lib} {G : Geometry} {E : Detector.EyeModel}
        {K : Detector.Kalman} {S : Detector.Search} {R : Pipeline.Reporting}
        (self : Pipeline.Object) (mode : Pipeline.DetectorMode) (t : Q) :
  let d := Pipeline.detector self in
  let after := Pipeline.set_long_term_mode self mode in
  (mode = Pipeline._long_term_mode self -> after = self)
  /\ (mode <> Pipeline._long_term_mode self ->
      Pipeline.detector after
      = Pipeline.fresh (Detector.camera d) (Detector._settings d) mode
                       (Detector.logger d)
      /\ Pipeline._long_term_mode after = mode
      /\ Pipeline.cleaned_up after
         = Pipeline.cleaned_up self
           ++ [Detector.short_term_model d; Detector.long_term_model d;
               Detector.ultra_long_term_model d]
      /\ Detector.kalman_filter (Pipeline.detector after) = []
      /\ fst (Schedule.is_update_due
                (Detector._long_term_schedule (Pipeline.detector after)) t)
         = true
      /\ fst (Schedule.is_update_due
                (Detector._ult_long_term_schedule (Pipeline.detector after)) t)
         = true).
Proof.
  cbn zeta. unfold Pipeline.set_long_term_mode.
  destruct self as [d current cleaned]. cbn [Pipeline._long_term_mode].
  split.
  - intros ->. destruct current; reflexivity.
  - intro Hne.
    assert (Hneq : Pipeline.mode_eqb mode current = false).
    { destruct mode, current; try reflexivity; contradiction Hne; reflexivity. }
    rewrite Hneq. cbn. repeat split.
Qed.

Lemma X22_changing_the_mode_resets_witness :
  let self :=
      Pipeline.init (Detector.make_camera 283 (192, 192))
                    Detector.default_settings Pipeline.blocking in
  let after := Pipeline.set_long_term_mode self Pipeline.asynchronous in
  Pipeline.asynchronous <> Pipeline._long_term_mode self
  /\ Pipeline._long_term_mode after = Pipeline.asynchronous
  /\ Detector.kalman_filter (Pipeline.detector after) = [].
Proof.
  cbn zeta.
  assert (Hne : Pipeline.asynchronous
                <> Pipeline._long_term_mode
                     (Pipeline.init (Detector.make_camera 283 (192, 192))
                                    Detector.default_settings Pipeline.blocking))
    by discriminate.
  split; [exact Hne|].
  destruct (proj2 (X22_changing_the_mode_resets
                     (Pipeline.init (Detector.make_camera 283 (192, 192))
                                    Detector.default_settings Pipeline.blocking)
                     Pipeline.asynchronous 0) Hne)
    as [_ [Hmode [_ [Hfilter _]]]].
  split; [exact Hmode | exact Hfilter].
Defined.

(** ** The orchestrator: every update cycle *)

Section CycleFacts.

Import Detector.

Context {L : Np.Lib} {G : Geometry} {E : EyeModel} {K : Kalman} {S : Search}.

Ltac reduce :=
  cbn -[Schedule.is_update_due sigmoid centers].

(** Closes a leaf of the case analysis below. *)
Ltac leaf :=
  repeat split; try reflexivity; try discriminate;
  try (intros _; eexists; split; [reflexivity|];
       cbn [projected three_dim];
       match goal with
       | Hs : estimate_sphere_center
                (add_observation (short_term_model _) _) _ _ _ = _ |- _ =>
           rewrite Hs
       end;
       split; [reflexivity|]; eexists; reflexivity).

(** A cycle with three non-empty storages, step by step. *)
Lemma cycle_outcome (d : Detector3D) (observation : Observation) :
  storages_non_empty (add_to_storages observation d) = true ->
  let d' := fst (update_models observation d) in
  let fitting :=
      snd (fitting_sequence observation (add_to_storages observation d)) in
  snd (update_models observation d) = Ok tt
  /\ camera d' = camera d
  /\ _settings d' = _settings d
  /\ kalman_filter d' = kalman_filter d
  /\ _ult_long_term_schedule d'
     = snd (Schedule.is_update_due (_ult_long_term_schedule d)
                                   (timestamp observation))
  /\ _long_term_schedule d'
     = (if ult_failed d observation then _long_term_schedule d
        else snd (Schedule.is_update_due (_long_term_schedule d)
                                         (timestamp observation)))
  /\ ultra_long_term_model d' = ult_then d observation
  /\ long_term_model d'
     = (if ult_failed d observation
        then add_observation (long_term_model d) observation
        else lt_then d observation)
  /\ logger d'
     = logger d
       ++ match fitting with
          | Ok _ => []
          | Raise e => [log_error_updating_models; log_debug_traceback e]
          end
  /\ (fitting = Ok tt ->
      exists estimates : SphereCenterEstimates,
        lt_estimates d observation = Ok estimates
        /\ short_term_model d' = fst (st_refit d observation estimates)
        /\ exists refitted : SphereCenterEstimates,
            snd (st_refit d observation estimates) = Ok refitted).
Proof.
  intro Hstored. cbn zeta.
  unfold update_models, bindM, modify, get, ret, try_except.
  rewrite Hstored.
  unfold ult_failed, lt_then, lt_estimates, st_refit, lt_refit, ult_then,
    ult_refit, lt_due, ult_due.
  unfold fitting_sequence, bindM, get, ret, ult_long_term_is_update_due,
    long_term_is_update_due, ultra_long_term_estimate, long_term_estimate,
    short_term_estimate.
  destruct (Schedule.is_update_due (_long_term_schedule d) (timestamp observation))
    as [due_lt sl] eqn:El.
  destruct (Schedule.is_update_due (_ult_long_term_schedule d)
                                   (timestamp observation))
    as [due_ult su] eqn:Eu.
  reduce. rewrite Eu. reduce.
  destruct due_ult; reduce.
  - destruct (estimate_sphere_center
                (add_observation (ultra_long_term_model d) observation)
                None None 0) as [mu [estu|eu]] eqn:Hu; reduce.
    + rewrite El. reduce. destruct due_lt; reduce.
      * destruct (estimate_sphere_center
                    (add_observation (long_term_model d) observation)
                    None (Some (sphere_center mu)) (1 # 10))
          as [ml [estl|el]] eqn:Hl; reduce.
        -- destruct (estimate_sphere_center
                       (add_observation (short_term_model d) observation) _ _ _)
             as [ms [ests|es]] eqn:Hs; reduce; rewrite ?app_nil_r; leaf.
        -- rewrite ?app_nil_r. leaf.
      * destruct (estimate_sphere_center
                    (add_observation (short_term_model d) observation) _ _ _)
          as [ms [ests|es]] eqn:Hs; reduce; rewrite ?app_nil_r; leaf.
    + rewrite ?app_nil_r. leaf.
  - rewrite El. reduce. destruct due_lt; reduce.
    + destruct (estimate_sphere_center
                  (add_observation (long_term_model d) observation)
                  None _ (1 # 10))
        as [ml [estl|el]] eqn:Hl; reduce.
      * destruct (estimate_sphere_center
                    (add_observation (short_term_model d) observation) _ _ _)
          as [ms [ests|es]] eqn:Hs; reduce; rewrite ?app_nil_r; leaf.
      * rewrite ?app_nil_r. leaf.
    + destruct (estimate_sphere_center
                  (add_observation (short_term_model d) observation) _ _ _)
        as [ms [ests|es]] eqn:Hs; reduce; rewrite ?app_nil_r; leaf.
Qed.

(** X11.  [update_models] returns normally for every detector and every
    observation: an exception of a least-squares solve never leaves it.  It
    touches neither the camera, nor the settings, nor the filter; and the
    log either stays as it is, or grows by exactly the error record and the
    traceback record of the exception that the fitting sequence raised. *)
Theorem X11_update_models_never_raises
        (d : Detector3D) (observation : Observation) :
  let d' := fst (update_models observation d) in
  snd (update_models observation d) = Ok tt
  /\ camera d' = camera d
  /\ _settings d' = _settings d
  /\ kalman_filter d' = kalman_filter d
  /\ (logger d' = logger d
      \/ exists e : exn,
          storages_non_empty (add_to_storages observation d) = true
          /\ snd (fitting_sequence observation (add_to_storages observation d))
             = Raise e
          /\ logger d'
             = logger d ++ [log_error_updating_models; log_debug_traceback e]).
Proof.
  cbn zeta.
  destruct (storages_non_empty (add_to_storages observation d)) eqn:Hstored.
  - destruct (cycle_outcome d observation Hstored)
      as (Hret & Hcam & Hset & Hkal & _ & _ & _ & _ & Hlog & _).
    repeat (split; [assumption|]).
    destruct (snd (fitting_sequence observation (add_to_storages observation d)))
      as [[]|e] eqn:Hfit.
    + left. rewrite Hlog. apply app_nil_r.
    + right. exists e. split; [reflexivity|]. split; [reflexivity|]. exact Hlog.
  - unfold update_models, bindM, modify, get, ret.
    rewrite Hstored. cbn. repeat split. left. reflexivity.
Qed.

(** X12.  Which schedules a cycle consumes.  While one of the three
    storages is empty no schedule is asked, so no warmup starts.  With three
    non-empty storages the ultra-long-term schedule is always asked, also
    when the refit it allows then raises: the failed refit is not tried
    again before the schedule's next due time.  The long-term schedule is
    asked exactly when the ultra-long-term step did not raise. *)
Theorem X12_schedules_asked_in_a_cycle
        (d : Detector3D) (observation : Observation) :
  let d' := fst (update_models observation d) in
  let stored := storages_non_empty (add_to_storages observation d) in
  _ult_long_term_schedule d'
  = (if stored
     then snd (Schedule.is_update_due (_ult_long_term_schedule d)
                                      (timestamp observation))
     else _ult_long_term_schedule d)
  /\ _long_term_schedule d'
     = (if stored && negb (ult_failed d observation)
        then snd (Schedule.is_update_due (_long_term_schedule d)
                                         (timestamp observation))
        else _long_term_schedule d).
Proof.
  cbn zeta.
  destruct (storages_non_empty (add_to_storages observation d)) eqn:Hstored.
  - destruct (cycle_outcome d observation Hstored)
      as (_ & _ & _ & _ & Hult & Hlt & _).
    split; [exact Hult|].
    rewrite Hlt. cbn [andb].
    destruct (ult_failed d observation); reflexivity.
  - unfold update_models, bindM, modify, get, ret.
    rewrite Hstored. cbn. split; reflexivity.
Qed.

(** X13.  A cycle whose fitting sequence completes: the short-term tier is
    refit in every such cycle, due or not, with the estimates of the
    long-term step as its priors (those the long-term refit returned when it
    was due, and the long-term tier's current projected and 3D centers
    otherwise) and with the sigmoid of its own mean circularity as the prior
    strength; the long-term and ultra-long-term tiers are the refitted ones
    where due; and nothing is logged. *)
Theorem X13_completed_cycle_refits_the_short_term_tier
        (d : Detector3D) (observation : Observation) :
  storages_non_empty (add_to_storages observation d) = true ->
  snd (fitting_sequence observation (add_to_storages observation d)) = Ok tt ->
  let d' := fst (update_models observation d) in
  ult_failed d observation = false
  /\ ultra_long_term_model d' = ult_then d observation
  /\ long_term_model d' = lt_then d observation
  /\ logger d' = logger d
  /\ exists estimates refitted : SphereCenterEstimates,
      lt_estimates d observation = Ok estimates
      /\ st_refit d observation estimates
         = (short_term_model d', Ok refitted).
Proof.
  intros Hstored Hfit. cbn zeta.
  destruct (cycle_outcome d observation Hstored)
    as (_ & _ & _ & _ & _ & _ & Hult & Hlt & Hlog & Hshort).
  rewrite Hfit in Hlog. rewrite app_nil_r in Hlog.
  destruct (Hshort Hfit) as (estimates & Hest & Hst & refitted & Href).
  assert (Hnot : ult_failed d observation = false).
  { destruct (ult_failed d observation) eqn:Hfailed; [|reflexivity].
    exfalso. revert Hfit Hfailed.
    unfold ult_failed, ult_due, ult_refit, fitting_sequence, bindM, get, ret,
      ult_long_term_is_update_due, ultra_long_term_estimate.
    destruct (Schedule.is_update_due (_ult_long_term_schedule d)
                                     (timestamp observation))
      as [due_ult su] eqn:Eu.
    reduce. rewrite Eu. reduce.
    destruct due_ult; reduce; [|discriminate].
    destruct (estimate_sphere_center
                (add_observation (ultra_long_term_model d) observation)
                None None 0) as [mu [estu|eu]]; reduce; discriminate. }
  rewrite Hnot in Hlt.
  split; [exact Hnot|]. split; [exact Hult|]. split; [exact Hlt|].
  split; [exact Hlog|].
  exists estimates, refitted. split; [exact Hest|].
  rewrite Hst, <- Href. apply surjective_pairing.
Qed.

End CycleFacts.

Lemma X13_completed_cycle_refits_the_short_term_tier_witness :
  let refitted := Ok (Detector.make_estimates [1; 1] [1; 2; 30]) in
  let d := Example.detector
             (Example.tier 0 refitted Example.circle_a)
             (Example.tier 0 refitted Example.circle_a)
             (Example.tier 0 refitted Example.circle_a) in
  let observation := Detector._extract_observation d Example.datum in
  let d' := fst (Detector.update_models observation d) in
  Detector.storages_non_empty (Detector.add_to_storages observation d) = true
  /\ snd (Detector.fitting_sequence
            observation (Detector.add_to_storages observation d)) = Ok tt
  /\ Detector.logger d' = Detector.logger d
  /\ Detector.long_term_model d' = lt_then d observation.
Proof.
  cbn zeta.
  split; [vm_compute; reflexivity|].
  split; [vm_compute; reflexivity|].
  pose proof (X13_completed_cycle_refits_the_short_term_tier
                (Example.detector
                   (Example.tier 0 (Ok (Detector.make_estimates [1; 1] [1; 2; 30]))
                                 Example.circle_a)
                   (Example.tier 0 (Ok (Detector.make_estimates [1; 1] [1; 2; 30]))
                                 Example.circle_a)
                   (Example.tier 0 (Ok (Detector.make_estimates [1; 1] [1; 2; 30]))
                                 Example.circle_a))
                (Detector._extract_observation
                   (Example.detector
                      (Example.tier 0 (Ok (Detector.make_estimates [1; 1] [1; 2; 30]))
                                    Example.circle_a)
                      (Example.tier 0 (Ok (Detector.make_estimates [1; 1] [1; 2; 30]))
                                    Example.circle_a)
                      (Example.tier 0 (Ok (Detector.make_estimates [1; 1] [1; 2; 30]))
                                    Example.circle_a))
                   Example.datum)
                eq_refl eq_refl) as H.
  cbn zeta in H. destruct H as (_ & _ & Hlt & Hlog & _).
  split; [exact Hlog | exact Hlt].
Defined.

(** ** The orchestrator: what a prediction leaves alone *)

Section PredictionFrame.

Import Detector.

Context {L : Np.Lib} {G : Geometry} {E : EyeModel} {K : Kalman} {S : Search}.




End PredictionFrame.


(** ** The orchestrator: one frame and its result *)

Section FrameFacts.

Import Detector Pipeline.

Context {L : Np.Lib} {G : Geometry} {E : EyeModel} {K : Kalman} {S : Search}
        {R : Reporting}.

Lemma update_models_returns (d : Detector3D) (observation : Observation) :
  update_models observation d = (fst (update_models observation d), Ok tt)
  /\ camera (fst (update_models observation d)) = camera d
  /\ _settings (fst (update_models observation d)) = _settings d.
Proof.
  destruct (storages_non_empty (add_to_storages observation d)) eqn:Hstored.
  - destruct (cycle_outcome d observation Hstored)
      as (Hret & Hcam & Hset & _).
    split; [|split; assumption].
    rewrite <- Hret. apply surjective_pairing.
  - unfold update_models, bindM, modify, get, ret.
    rewrite Hstored. cbn. repeat split.
Qed.


(** A frame without debug information, in one equation. *)
Lemma update_and_detect_eq (d : Detector3D) (pupil_datum : PupilDatum.t)
      (frame : Frame) (with_refraction_correction : bool) :
  update_and_detect pupil_datum frame with_refraction_correction false d
  = (after_frame d pupil_datum frame,
     Ok (_prepare_result
           (updated d pupil_datum) (frame_observation d pupil_datum frame)
           (prediction_uncorrected d pupil_datum frame)
           (prediction_corrected d pupil_datum frame
                                 with_refraction_correction))).
Proof.
  unfold update_and_detect, after_frame, prediction_corrected,
    prediction_uncorrected, frame_circle, frame_observation, updated.
  destruct (update_models_returns d (_extract_observation d pupil_datum))
    as (Hret & _).
  rewrite Hret. cbn [fst].
  rewrite predict_pupil_circle_eq.
  destruct (settled (fst (update_models (_extract_observation d pupil_datum) d))
                    (_extract_observation d pupil_datum) frame)
    as [pupil_circle observation'].
  cbn [fst snd].
  destruct with_refraction_correction; reflexivity.
Qed.


(** X16.  What the refraction correction changes.  Switching
    [apply_refraction_correction] on or off leaves the detector after the
    frame the same, and of the result it changes at most the sphere center,
    the 3D circle and the two angles: the timestamp, the projected sphere,
    the 2D ellipse, both diameters (also [diameter_3d]) and both confidences
    are equal.  With the correction the sphere center is the long-term
    tier's corrected center and the 3D circle is the corrected circle;
    without it they are the tier's uncorrected center and the circle the
    frame settled on. *)
Theorem X16_refraction_correction_changes_3d_fields_only
        (d : Detector3D) (pupil_datum : PupilDatum.t) (frame : Frame) :
  exists (d' : Detector3D) (on off : Result.t),
    update_and_detect pupil_datum frame true false d = (d', Ok on)
    /\ update_and_detect pupil_datum frame false false d = (d', Ok off)
    /\ Result.timestamp on = Result.timestamp off
    /\ Result.projected_sphere on = Result.projected_sphere off
    /\ Result.ellipse on = Result.ellipse off
    /\ Result.diameter on = Result.diameter off
    /\ Result.diameter_3d on = Result.diameter_3d off
    /\ Result.confidence on = Result.confidence off
    /\ Result.confidence_2d on = Result.confidence_2d off
    /\ Result.circle_3d on
       = circle2dict
           (apply_refraction_correction
              (long_term_model (updated d pupil_datum))
              (frame_circle d pupil_datum frame))
    /\ Result.circle_3d off = circle2dict (frame_circle d pupil_datum frame)
    /\ (let center :=
            corrected_sphere_center (long_term_model (updated d pupil_datum)) in
        Result.sphere_center on
        = (nth 0 center 0, nth 1 center 0, nth 2 center 0))
    /\ (let center :=
            sphere_center (long_term_model (updated d pupil_datum)) in
        Result.sphere_center off
        = (nth 0 center 0, nth 1 center 0, nth 2 center 0)).
Proof.
  rewrite !update_and_detect_eq.
  eexists. eexists. eexists.
  split; [reflexivity|]. split; [reflexivity|].
  unfold _prepare_result, prediction_corrected, prediction_uncorrected.
  cbn [prediction_sphere_center pupil_circle].
  destruct (cart2sph (Circle.normal
                        (apply_refraction_correction
                           (long_term_model (updated d pupil_datum))
                           (frame_circle d pupil_datum frame))))
    as [[phi|] [theta|]];
    destruct (cart2sph (Circle.normal (frame_circle d pupil_datum frame)))
      as [[phi'|] [theta'|]];
    cbn; repeat split.
Qed.


End FrameFacts.


(** ** The result record: what stands in for a missing value *)

Section ResultFacts.

Import Detector Pipeline.

Context {L : Np.Lib} {G : Geometry} {E : EyeModel} {K : Kalman} {S : Search}
        {R : Reporting}.

(** X18.  The fallbacks of [_prepare_result].  When the uncorrected pupil
    circle cannot be projected into the image, the reported ellipse is the
    zero ellipse at the origin and the reported diameter is 0.  When
    [cart2sph] gives NaN for one of the two angles of the corrected normal,
    both reported angles are 0.0, also the one that was a number; otherwise
    they are the two angles, unchanged. *)
Theorem X18_result_fallbacks
        (d : Detector3D) (observation : Observation)
        (uncorrected corrected : Prediction) :
  let result := _prepare_result d observation uncorrected corrected in
  let projected :=
      project_circle_into_image_plane
        (pupil_circle uncorrected) (focal_length (camera d)) true
        (fst (resolution (camera d))) (snd (resolution (camera d))) in
  let angles := cart2sph (Circle.normal (pupil_circle corrected)) in
  (projected = None ->
   Result.ellipse result = EllipseDict.make (0, 0) (0, 0) 0
   /\ Result.diameter result = 0)
  /\ (forall ellipse : Ellipse.t,
         projected = Some ellipse ->
         Result.ellipse result = ellipse2dict ellipse
         /\ Result.diameter result = Ellipse.major_radius ellipse)
  /\ (fst angles = None \/ snd angles = None ->
      Result.theta result = 0 /\ Result.phi result = 0)
  /\ (forall phi theta : Q,
         angles = (Some phi, Some theta) ->
         Result.theta result = theta /\ Result.phi result = phi).
Proof.
  cbn zeta. unfold _prepare_result.
  destruct (cart2sph (Circle.normal (pupil_circle corrected)))
    as [[phi|] [theta|]];
    destruct (project_circle_into_image_plane
                (pupil_circle uncorrected) (focal_length (camera d)) true
                (fst (resolution (camera d))) (snd (resolution (camera d))))
      as [ellipse|];
    cbn [Result.ellipse Result.diameter Result.theta Result.phi fst snd];
    (split; [intro H; try discriminate H; split; reflexivity|]);
    (split; [intros e H; try discriminate H;
             inversion H; subst; split; reflexivity|]);
    (split; [intros [H|H]; try discriminate H; split; reflexivity|]);
    intros p t H; try discriminate H; inversion H; subst; split; reflexivity.
Qed.

End ResultFacts.

Lemma X18_result_fallbacks_witness :
  let uncorrected := Detector.make_prediction [0; 0; 35] Example.circle_a in
  let corrected :=
      Detector.make_prediction [0; 0; 35]
                               (Circle.make [0; 0; 25] [0; 0; 0] 2) in
  let result :=
      Pipeline._prepare_result Example.watching Example.observation
                               uncorrected corrected in
  project_circle_into_image_plane
    Example.circle_a (Detector.focal_length (Detector.camera Example.watching))
    true (fst (Detector.resolution (Detector.camera Example.watching)))
    (snd (Detector.resolution (Detector.camera Example.watching))) = None
  /\ fst (Pipeline.cart2sph [0; 0; 0]) = None
  /\ Pipeline.Result.diameter result = 0
  /\ Pipeline.Result.theta result = 0.
Proof.
  cbn zeta.
  assert (Hnone :
            project_circle_into_image_plane
              Example.circle_a
              (Detector.focal_length (Detector.camera Example.watching))
              true (fst (Detector.resolution (Detector.camera Example.watching)))
              (snd (Detector.resolution (Detector.camera Example.watching)))
            = None) by reflexivity.
  assert (Hnan : fst (Pipeline.cart2sph [0; 0; 0]) = None) by reflexivity.
  split; [exact Hnone|]. split; [exact Hnan|].
  destruct (X18_result_fallbacks
              (R := ExampleMore.reporting)
              Example.watching Example.observation
              (Detector.make_prediction [0; 0; 35] Example.circle_a)
              (Detector.make_prediction [0; 0; 35]
                                        (Circle.make [0; 0; 25] [0; 0; 0] 2)))
    as (Hprojected & _ & Hangles & _).
  split.
  - exact (proj2 (Hprojected Hnone)).
  - exact (proj1 (Hangles (or_introl Hnan))).
Defined.

(** ** The debug information: the occupancy of the bins *)

Section BinFacts.

Import Detector Pipeline.

Context {L : Np.Lib} {G : Geometry} {E : EyeModel} {K : Kalman} {S : Search}
        {R : Reporting}.

Lemma Qmax_cases (x y : Q) : Qmax x y = x \/ Qmax x y = y.
Proof.
  unfold Qmax, GenericMinMax.gmax. destruct (x ?= y); auto.
Qed.

Lemma fold_max_bound (rest : list Q) (x : Q) :
  x <= fold_left Qmax rest x
  /\ Forall (fun y => y <= fold_left Qmax rest x) rest.
Proof.
  revert x. induction rest as [|y rest IH]; intro x; cbn [fold_left].
  - split; [apply Qle_refl | constructor].
  - destruct (IH (Qmax x y)) as [Hhead Hrest]. split.
    + apply Qle_trans with (Qmax x y); [apply Q.le_max_l | exact Hhead].
    + constructor; [|exact Hrest].
      apply Qle_trans with (Qmax x y); [apply Q.le_max_r | exact Hhead].
Qed.

Lemma fold_max_member (rest : list Q) (x : Q) :
  In (fold_left Qmax rest x) (x :: rest).
Proof.
  revert x. induction rest as [|y rest IH]; intro x; cbn [fold_left].
  - left. reflexivity.
  - destruct (IH (Qmax x y)) as [Hhead | Hrest].
    + rewrite <- Hhead. destruct (Qmax_cases x y) as [Hmax | Hmax];
        rewrite Hmax; [left | right; left]; reflexivity.
    + right. right. exact Hrest.
Qed.

(** [np.max] of an array with an element: an element, and no smaller than
    any. *)
Lemma np_max_spec (counts : Np.Mat) :
  concat counts <> [] ->
  exists max_bin_level : Q,
    np_max counts = Ok max_bin_level
    /\ In max_bin_level (concat counts)
    /\ Forall (fun y => y <= max_bin_level) (concat counts).
Proof.
  unfold np_max. intro Hsome.
  destruct (concat counts) as [|x rest]; [contradiction Hsome; reflexivity|].
  exists (fold_left Qmax rest x). split; [reflexivity|].
  split; [apply fold_max_member|].
  destruct (fold_max_bound rest x) as [Hhead Hrest].
  constructor; assumption.
Qed.

Lemma bin_data_of_debug_info (d : Detector3D) (bins : list (list Float)) :
  bin_data d = Ok bins ->
  exists info : DebugInfo.t,
    _collect_debug_info d = Ok info /\ DebugInfo.bin_data info = bins.
Proof.
  intro Hbins. unfold _collect_debug_info. rewrite Hbins. cbn.
  eexists. split; reflexivity.
Qed.

(** X19.  The bin occupancy of the debug information, when the long-term
    storage counts its bins, no count is negative and a bin is occupied:
    [_collect_debug_info] returns; [bin_data] has the shape of the counts
    with the rows in reverse order; each entry is its count over the
    largest count; so every entry is a number within the unit interval. *)
Theorem X19_occupied_bins_are_scaled_to_the_unit_interval
        (d : Detector3D) (counts : Np.Mat) :
  get_bin_counts (long_term_model d) = Some counts ->
  all_entries (fun x => 0 <= x) counts ->
  Exists (Exists (fun x => 0 < x)) counts ->
  exists (max_bin_level : Q) (info : DebugInfo.t),
    np_max counts = Ok max_bin_level
    /\ 0 < max_bin_level
    /\ _collect_debug_info d = Ok info
    /\ DebugInfo.bin_data info
       = rev (map (map (fun x => finite (x / max_bin_level))) counts)
    /\ all_entries in_unit_interval (DebugInfo.bin_data info).
Proof.
  intros Hcounts Hnonneg Hoccupied.
  assert (Hsome : concat counts <> []).
  { apply Exists_concat in Hoccupied. intro Hnil. rewrite Hnil in Hoccupied.
    inversion Hoccupied. }
  destruct (np_max_spec counts Hsome) as (m & Hmax & Hin & Hbound).
  assert (Hpositive : 0 < m).
  { apply Exists_concat in Hoccupied. apply Exists_exists in Hoccupied.
    destruct Hoccupied as (x & Hx & Hpos).
    apply Qlt_le_trans with x; [exact Hpos|].
    rewrite Forall_forall in Hbound. exact (Hbound x Hx). }
  assert (Hdivide : forall x, true_divide x m = finite (x / m)).
  { intro x. unfold true_divide.
    destruct (Qeq_bool m 0) eqn:Hzero; [|reflexivity].
    apply Qeq_bool_iff in Hzero. rewrite Hzero in Hpositive.
    discriminate Hpositive. }
  assert (Hbins :
            bin_data d
            = Ok (rev (map (map (fun x => finite (x / m))) counts))).
  { unfold bin_data. rewrite Hcounts, Hmax. cbn [bind].
    replace (Cmp.geb m 0) with true.
    - f_equal. f_equal. apply map_ext. intro row. apply map_ext. exact Hdivide.
    - symmetry. apply geb_true. apply Qlt_le_weak. exact Hpositive. }
  destruct (bin_data_of_debug_info d Hbins) as (info & Hinfo & Hdata).
  exists m, info.
  split; [exact Hmax|]. split; [exact Hpositive|]. split; [exact Hinfo|].
  split; [exact Hdata|].
  rewrite Hdata. unfold all_entries. apply Forall_rev.
  apply Forall_concat in Hbound.
  unfold all_entries in Hnonneg.
  rewrite Forall_forall in Hbound, Hnonneg. rewrite Forall_forall.
  intros row' Hrow'. apply in_map_iff in Hrow'.
  destruct Hrow' as (row & Hrow & Hmember). subst row'.
  specialize (Hbound row Hmember). specialize (Hnonneg row Hmember).
  rewrite Forall_forall in Hbound, Hnonneg. rewrite Forall_forall.
  intros entry Hentry. apply in_map_iff in Hentry.
  destruct Hentry as (x & Hx & Hxin). subst entry.
  cbn [in_unit_interval]. split.
  - apply Qle_shift_div_l; [exact Hpositive|].
    rewrite Qmult_0_l. exact (Hnonneg x Hxin).
  - apply Qle_shift_div_r; [exact Hpositive|].
    rewrite Qmult_1_l. exact (Hbound x Hxin).
Qed.

(** X20.  The bin occupancy while every count is zero (no bin is occupied
    yet): the largest count is 0, the test [max_bin_level >= 0] passes, and
    the counts are divided by zero; [_collect_debug_info] still returns, and
    every entry of [bin_data] is NaN. *)
Theorem X20_empty_bins_give_nan
        (d : Detector3D) (counts : Np.Mat) :
  get_bin_counts (long_term_model d) = Some counts ->
  concat counts <> [] ->
  all_entries (fun x => x == 0) counts ->
  exists info : DebugInfo.t,
    _collect_debug_info d = Ok info
    /\ DebugInfo.bin_data info = rev (map (map (fun _ => nan)) counts)
    /\ all_entries (fun x => x = nan) (DebugInfo.bin_data info).
Proof.
  intros Hcounts Hsome Hzero.
  destruct (np_max_spec counts Hsome) as (m & Hmax & Hin & _).
  unfold all_entries in Hzero.
  assert (Hflat : Forall (fun x => x == 0) (concat counts))
    by (apply Forall_concat; exact Hzero).
  assert (Hm : m == 0).
  { rewrite Forall_forall in Hflat. exact (Hflat m Hin). }
  assert (Hbins : bin_data d = Ok (rev (map (map (fun _ => nan)) counts))).
  { unfold bin_data. rewrite Hcounts, Hmax. cbn [bind].
    replace (Cmp.geb m 0) with true.
    - f_equal. f_equal. apply map_ext_in. intros row Hrow.
      apply map_ext_in. intros x Hx. unfold true_divide.
      rewrite (proj2 (Qeq_bool_iff m 0) Hm).
      rewrite Forall_forall in Hzero. specialize (Hzero row Hrow).
      rewrite Forall_forall in Hzero.
      rewrite (proj2 (Qeq_bool_iff x 0) (Hzero x Hx)). reflexivity.
    - symmetry. apply geb_true. rewrite Hm. apply Qle_refl. }
  destruct (bin_data_of_debug_info d Hbins) as (info & Hinfo & Hdata).
  exists info. split; [exact Hinfo|]. split; [exact Hdata|].
  rewrite Hdata. unfold all_entries. apply Forall_rev.
  rewrite Forall_forall. intros row' Hrow'. apply in_map_iff in Hrow'.
  destruct Hrow' as (row & Hrow & _). subst row'.
  rewrite Forall_forall. intros entry Hentry. apply in_map_iff in Hentry.
  destruct Hentry as (x & Hx & _). symmetry. exact Hx.
Qed.

End BinFacts.

Lemma X19_occupied_bins_are_scaled_to_the_unit_interval_witness :
  let counts := [[1; 1]; [2; 0]] in
  Pipeline.get_bin_counts (Detector.long_term_model Example.watching)
  = Some counts
  /\ all_entries (fun x => 0 <= x) counts
  /\ Exists (Exists (fun x => 0 < x)) counts
  /\ exists (max_bin_level : Q) (info : Pipeline.DebugInfo.t),
      Pipeline.np_max counts = Ok max_bin_level
      /\ Pipeline._collect_debug_info Example.watching = Ok info
      /\ all_entries in_unit_interval (Pipeline.DebugInfo.bin_data info).
Proof.
  cbn zeta.
  assert (Hcounts :
            Pipeline.get_bin_counts (Detector.long_term_model Example.watching)
            = Some [[1; 1]; [2; 0]]) by reflexivity.
  assert (Hnonneg : all_entries (fun x => 0 <= x) [[1; 1]; [2; 0]]).
  { repeat constructor; discriminate. }
  assert (Hoccupied : Exists (Exists (fun x => 0 < x)) [[1; 1]; [2; 0]]).
  { apply Exists_cons_hd. apply Exists_cons_hd. reflexivity. }
  split; [exact Hcounts|]. split; [exact Hnonneg|]. split; [exact Hoccupied|].
  destruct (X19_occupied_bins_are_scaled_to_the_unit_interval
              (R := ExampleMore.reporting) Example.watching
              Hcounts Hnonneg Hoccupied)
    as (m & info & Hmax & _ & Hinfo & _ & Hunit).
  exists m, info. split; [exact Hmax|]. split; [exact Hinfo | exact Hunit].
Defined.

Lemma X20_empty_bins_give_nan_witness :
  let counts := [[0; 0]; [0; 0]] in
  Pipeline.get_bin_counts (Reporting := ExampleMore.empty_bins)
                          (Detector.long_term_model Example.watching)
  = Some counts
  /\ concat counts <> []
  /\ all_entries (fun x => x == 0) counts
  /\ exists info : Pipeline.DebugInfo.t,
      Pipeline._collect_debug_info (R := ExampleMore.empty_bins) Example.watching
      = Ok info
      /\ Pipeline.DebugInfo.bin_data info
         = [[Pipeline.nan; Pipeline.nan]; [Pipeline.nan; Pipeline.nan]].
Proof.
  cbn zeta.
  assert (Hcounts :
            Pipeline.get_bin_counts (Reporting := ExampleMore.empty_bins)
                                    (Detector.long_term_model Example.watching)
            = Some [[0; 0]; [0; 0]]) by reflexivity.
  assert (Hsome : concat [[0; 0]; [0; 0]] <> ([] : list Q)) by discriminate.
  assert (Hzero : all_entries (fun x => x == 0) [[0; 0]; [0; 0]]).
  { repeat constructor. }
  split; [exact Hcounts|]. split; [exact Hsome|]. split; [exact Hzero|].
  destruct (X20_empty_bins_give_nan
              (R := ExampleMore.empty_bins) Example.watching
              Hcounts Hsome Hzero)
    as (info & Hinfo & Hdata & _).
  exists info. split; [exact Hinfo | exact Hdata].
Defined.
